(** * hookify: the UserPromptSubmit hook executor

    A shallow embedding of [plugins/hookify/hooks/userpromptsubmit.py].

    The script is a thin adapter: it fixes the plugin root, imports the two
    collaborator modules, parses standard input, delegates to the loader and
    the rule engine, prints one JSON document and leaves with status 0.

    What is embedded from the source: the computation of [PLUGIN_ROOT], the
    update of [sys.path], the module-level [try/except ImportError], and
    [main] with its [try/except Exception/finally].

    What is outside the source and taken as a parameter: the parser
    [json.load], the opaque types of rule sets and engines, and, per run, the
    behaviour of the two imports and of the objects they bind.  The library
    functions [json.dumps] and [os.path.dirname] are written out for the
    fragment of Python values the script handles, after CPython's [json.encoder]
    and [posixpath].

    Conventions: a Python [str] is a Rocq [string] whose characters stand for
    the code points below 256; of the floats only the non-finite ones are
    represented; [SystemExit] carries an integer code.  In [script] and [run]
    writes to standard output succeed; [script_on] and [run_on] are the same
    script on a device whose [print] and final flush may fail. *)

From Stdlib Require Import String Ascii List ZArith Bool Lia.
From Stdlib Require Import Numbers.DecimalString.
Import ListNotations.
Local Open Scope list_scope.
Local Open Scope string_scope.

Set Implicit Arguments.
Set Warnings "-register-all".

(** ** Exceptions *)

(** The classes the script's handlers tell apart.  [ImportError] stands for
    the class and its subclasses ([ModuleNotFoundError]); [Exc cls msg] is any
    other subclass of [Exception]; [SystemExit] and [BaseExc] sit under
    [BaseException] only ([KeyboardInterrupt], [GeneratorExit]).  The string
    carried is what [str(e)] returns. *)
Inductive exn : Type :=
| SystemExit (code : Z)
| BaseExc (cls : string) (msg : string)
| ImportError (msg : string)
| Exc (cls : string) (msg : string).

(** [isinstance(e, ImportError)] *)
Definition is_ImportError (e : exn) : bool :=
  match e with
  | ImportError _ => true
  | _ => false
  end.

(** [isinstance(e, Exception)] *)
Definition is_Exception (e : exn) : bool :=
  match e with
  | ImportError _ | Exc _ _ => true
  | SystemExit _ | BaseExc _ _ => false
  end.

Definition string_of_Z (z : Z) : string :=
  NilZero.string_of_int (Z.to_int z).

(** [str(e)] *)
Definition py_str (e : exn) : string :=
  match e with
  | SystemExit code => string_of_Z code
  | BaseExc _ msg => msg
  | ImportError msg => msg
  | Exc _ msg => msg
  end.

(** [json.JSONDecodeError] is a subclass of [ValueError]. *)
Definition JSONDecodeError (msg : string) : exn := Exc "JSONDecodeError" msg.

(** Result of evaluating a Python expression: a value or a raised exception. *)
Inductive res (A : Type) : Type :=
| Ret (a : A)
| Raise (e : exn).
Arguments Raise {A} e.

Definition res_bind {A B} (r : res A) (k : A -> res B) : res B :=
  match r with
  | Ret a => k a
  | Raise e => Raise e
  end.

Fixpoint res_sequence {A} (l : list (res A)) : res (list A) :=
  match l with
  | [] => Ret []
  | r :: l' =>
      res_bind r (fun a => res_bind (res_sequence l') (fun l'' => Ret (a :: l'')))
  end.

(** ** Python values and [json.dumps] *)

(** [float('nan')], [float('inf')] and [float('-inf')]. *)
Inductive nonfinite : Type :=
| NaN
| PosInfinity
| NegInfinity.

(** The values that reach [json.dumps]: the JSON-shaped ones, with
    insertion-ordered dictionaries keyed by strings; the non-finite floats;
    [PyOpaque ty] for an object of a class [ty] the encoder has no rule for;
    and [PyRejected e] for any other value on which the encoder raises [e],
    such as a dictionary with a tuple for a key ([TypeError]), a structure
    that contains itself ([ValueError]), an integer beyond the interpreter's
    digit limit ([ValueError]) or a nesting beyond its recursion limit
    ([RecursionError]); [PyInt], [PyList] and [PyDict] stand for values
    within those limits. *)
Inductive pyobj : Type :=
| PyNone
| PyBool (b : bool)
| PyInt (z : Z)
| PyStr (s : string)
| PyList (l : list pyobj)
| PyDict (items : list (string * pyobj))
| PyOpaque (ty : string)
| PyNonFinite (f : nonfinite)
| PyRejected (e : exn).

Definition dquote : string := String "034"%char EmptyString.
Definition backslash : string := String "092"%char EmptyString.

Definition hex_digit (n : nat) : ascii :=
  match n with
  | 0 => "0" | 1 => "1" | 2 => "2" | 3 => "3" | 4 => "4" | 5 => "5"
  | 6 => "6" | 7 => "7" | 8 => "8" | 9 => "9" | 10 => "a" | 11 => "b"
  | 12 => "c" | 13 => "d" | 14 => "e" | _ => "f"
  end%char.

(** The replacement [json.encoder] makes for one character with
    [ensure_ascii=True]: printable ASCII other than the quote and the
    backslash stays, the rest is escaped. *)
Definition escape_char (c : ascii) : string :=
  let n := nat_of_ascii c in
  if Nat.eqb n 34 then backslash ++ dquote
  else if Nat.eqb n 92 then backslash ++ backslash
  else if Nat.eqb n 8 then backslash ++ "b"
  else if Nat.eqb n 12 then backslash ++ "f"
  else if Nat.eqb n 10 then backslash ++ "n"
  else if Nat.eqb n 13 then backslash ++ "r"
  else if Nat.eqb n 9 then backslash ++ "t"
  else if (Nat.leb 32 n && Nat.leb n 126)%bool then String c EmptyString
  else backslash ++ "u00"
         ++ String (hex_digit (n / 16)) (String (hex_digit (n mod 16)) EmptyString).

Fixpoint escape_string (s : string) : string :=
  match s with
  | EmptyString => EmptyString
  | String c s' => escape_char c ++ escape_string s'
  end.

(** [py_encode_basestring_ascii] *)
Definition encode_basestring_ascii (s : string) : string :=
  dquote ++ escape_string s ++ dquote.

(** [', '.join(parts)] *)
Fixpoint join_comma (parts : list string) : string :=
  match parts with
  | [] => EmptyString
  | [p] => p
  | p :: rest => p ++ ", " ++ join_comma rest
  end.

Definition not_serializable (ty : string) : exn :=
  Exc "TypeError" ("Object of type " ++ ty ++ " is not JSON serializable").

(** [json.dumps(o)] with the default arguments. *)
Fixpoint json_dumps (o : pyobj) : res string :=
  match o with
  | PyNone => Ret "null"
  | PyBool b => Ret (if b then "true" else "false")
  | PyInt z => Ret (string_of_Z z)
  | PyStr s => Ret (encode_basestring_ascii s)
  | PyList l =>
      res_bind (res_sequence (map json_dumps l))
        (fun parts => Ret ("[" ++ join_comma parts ++ "]"))
  | PyDict items =>
      res_bind
        (res_sequence
           (map (fun kv =>
                   res_bind (json_dumps (snd kv))
                     (fun v => Ret (encode_basestring_ascii (fst kv) ++ ": " ++ v)))
              items))
        (fun parts => Ret ("{" ++ join_comma parts ++ "}"))
  | PyOpaque ty => Raise (not_serializable ty)
  | PyNonFinite NaN => Ret "NaN"
  | PyNonFinite PosInfinity => Ret "Infinity"
  | PyNonFinite NegInfinity => Ret "-Infinity"
  | PyRejected e => Raise e
  end.

(** ** [os.path.dirname] (posixpath) *)

Definition is_sep (c : ascii) : bool := Ascii.eqb c "/"%char.

(** [p.rfind('/') + 1]: the length of the longest prefix that ends with a
    separator, 0 when there is none. *)
Fixpoint rfind_sep_succ (p : string) : nat :=
  match p with
  | EmptyString => 0
  | String c p' =>
      match rfind_sep_succ p' with
      | 0 => if is_sep c then 1 else 0
      | S k => S (S k)
      end
  end.

(** [head == sep * len(head)] *)
Fixpoint all_sep (s : string) : bool :=
  match s with
  | EmptyString => true
  | String c s' => is_sep c && all_sep s'
  end.

(** [head.rstrip('/')] *)
Fixpoint rstrip_sep (s : string) : string :=
  match s with
  | EmptyString => EmptyString
  | String c s' =>
      match rstrip_sep s' with
      | EmptyString => if is_sep c then EmptyString else String c EmptyString
      | t => String c t
      end
  end.

Definition is_empty (s : string) : bool :=
  match s with
  | EmptyString => true
  | _ => false
  end.

Definition dirname (p : string) : string :=
  let i := rfind_sep_succ p in
  let head := substring 0 i p in
  if (negb (is_empty head) && negb (all_sep head))%bool
  then rstrip_sep head
  else head.

(** Shapes of paths, used to state what [dirname] returns. *)

(** No separator occurs in [s]. *)
Fixpoint no_sep (s : string) : bool :=
  match s with
  | EmptyString => true
  | String c s' => negb (is_sep c) && no_sep s'
  end.

(** [s] is not empty and does not end with a separator. *)
Fixpoint ends_plain (s : string) : bool :=
  match s with
  | EmptyString => false
  | String c EmptyString => negb (is_sep c)
  | String _ s' => ends_plain s'
  end.

(** ** JSON texts (RFC 8259)

    A recognizer for the grammar of the RFC, written from the RFC and
    independent of [json.load]: it says which texts on standard input are
    valid JSON.  [json_value], [json_elements] and [json_members] return the
    text that follows what they recognize. *)

Definition is_ws (c : ascii) : bool :=
  let n := nat_of_ascii c in
  (Nat.eqb n 32 || Nat.eqb n 9 || Nat.eqb n 10 || Nat.eqb n 13)%bool.

Fixpoint skip_ws (s : string) : string :=
  match s with
  | EmptyString => EmptyString
  | String c r => if is_ws c then skip_ws r else s
  end.

Definition is_digit (c : ascii) : bool :=
  (Nat.leb 48 (nat_of_ascii c) && Nat.leb (nat_of_ascii c) 57)%bool.

Definition is_hex (c : ascii) : bool :=
  let n := nat_of_ascii c in
  (is_digit c || (Nat.leb 65 n && Nat.leb n 70) || (Nat.leb 97 n && Nat.leb n 102))%bool.

Fixpoint skip_digits (s : string) : string :=
  match s with
  | EmptyString => EmptyString
  | String c r => if is_digit c then skip_digits r else s
  end.

(** One digit or more. *)
Definition json_digits (s : string) : option string :=
  match s with
  | String c r => if is_digit c then Some (skip_digits r) else None
  | EmptyString => None
  end.

Definition json_int (s : string) : option string :=
  match s with
  | String c r =>
      if Ascii.eqb c "0" then Some r
      else if is_digit c then Some (skip_digits r)
      else None
  | EmptyString => None
  end.

Definition json_frac (s : string) : option string :=
  match s with
  | String c r => if Ascii.eqb c "." then json_digits r else Some s
  | EmptyString => Some s
  end.

Definition json_exp (s : string) : option string :=
  match s with
  | String c r =>
      if (Ascii.eqb c "e" || Ascii.eqb c "E")%bool
      then match r with
           | String sign r' =>
               if (Ascii.eqb sign "+" || Ascii.eqb sign "-")%bool
               then json_digits r'
               else json_digits r
           | EmptyString => None
           end
      else Some s
  | EmptyString => Some s
  end.

Definition option_bind {A B} (o : option A) (k : A -> option B) : option B :=
  match o with
  | Some a => k a
  | None => None
  end.

Definition json_number (s : string) : option string :=
  let unsigned :=
    match s with
    | String c r => if Ascii.eqb c "-" then r else s
    | EmptyString => s
    end in
  option_bind (json_int unsigned) (fun r => option_bind (json_frac r) json_exp).

(** The characters of a string after its opening quote, up to and including
    the closing one. *)
Fixpoint json_string_body (s : string) : option string :=
  match s with
  | EmptyString => None
  | String c r =>
      if Ascii.eqb c "034" then Some r
      else if Ascii.eqb c "092" then
        match r with
        | String e r' =>
            if (Ascii.eqb e "034" || Ascii.eqb e "092" || Ascii.eqb e "/"
                || Ascii.eqb e "b" || Ascii.eqb e "f" || Ascii.eqb e "n"
                || Ascii.eqb e "r" || Ascii.eqb e "t")%bool
            then json_string_body r'
            else if Ascii.eqb e "u" then
              match r' with
              | String h1 (String h2 (String h3 (String h4 r''))) =>
                  if (is_hex h1 && is_hex h2 && is_hex h3 && is_hex h4)%bool
                  then json_string_body r''
                  else None
              | _ => None
              end
            else None
        | EmptyString => None
        end
      else if Nat.ltb (nat_of_ascii c) 32 then None
      else json_string_body r
  end.

Fixpoint strip_prefix (p s : string) : option string :=
  match p, s with
  | EmptyString, _ => Some s
  | String a p', String b s' => if Ascii.eqb a b then strip_prefix p' s' else None
  | String _ _, EmptyString => None
  end.

Definition json_literal (s : string) : option string :=
  match strip_prefix "true" s with
  | Some r => Some r
  | None =>
      match strip_prefix "false" s with
      | Some r => Some r
      | None => strip_prefix "null" s
      end
  end.

Fixpoint json_value (fuel : nat) (s : string) : option string :=
  match fuel with
  | 0 => None
  | S n =>
      match skip_ws s with
      | EmptyString => None
      | String c r =>
          if Ascii.eqb c "{" then
            match skip_ws r with
            | EmptyString => None
            | String c' r' =>
                if Ascii.eqb c' "}" then Some r' else json_members n r
            end
          else if Ascii.eqb c "[" then
            match skip_ws r with
            | EmptyString => None
            | String c' r' =>
                if Ascii.eqb c' "]" then Some r' else json_elements n r
            end
          else if Ascii.eqb c "034" then json_string_body r
          else if (Ascii.eqb c "-" || is_digit c)%bool then json_number (String c r)
          else json_literal (String c r)
      end
  end
with json_elements (fuel : nat) (s : string) : option string :=
  match fuel with
  | 0 => None
  | S n =>
      match json_value n s with
      | None => None
      | Some r =>
          match skip_ws r with
          | EmptyString => None
          | String c r' =>
              if Ascii.eqb c "," then json_elements n r'
              else if Ascii.eqb c "]" then Some r'
              else None
          end
      end
  end
with json_members (fuel : nat) (s : string) : option string :=
  match fuel with
  | 0 => None
  | S n =>
      match skip_ws s with
      | EmptyString => None
      | String c r =>
          if Ascii.eqb c "034" then
            match option_bind (json_string_body r) (fun r1 => Some (skip_ws r1)) with
            | Some (String c1 r2) =>
                if Ascii.eqb c1 ":" then
                  match json_value n r2 with
                  | None => None
                  | Some r3 =>
                      match skip_ws r3 with
                      | EmptyString => None
                      | String c3 r4 =>
                          if Ascii.eqb c3 "," then json_members n r4
                          else if Ascii.eqb c3 "}" then Some r4
                          else None
                      end
                  end
                else None
            | _ => None
            end
          else None
      end
  end.

(** [s] is a JSON text: one value between optional white space. *)
Definition is_json_text (s : string) : bool :=
  match json_value (2 * String.length s + 2) s with
  | Some r => is_empty (skip_ws r)
  | None => false
  end.

(** ** Effects: a trace of observable events and a raised exception *)

Section Hook.

(** The rule set and the engine are opaque to the script. *)
Variable RuleSet : Type.
Variable Engine : Type.

(** [json.load] applied to the text of standard input. *)
Variable json_load : string -> res pyobj.

Inductive event : Type :=
| Read_stdin
| Call_load_rules (ev : string)
| Call_RuleEngine
| Call_evaluate_rules (rules : RuleSet) (input_data : pyobj)
| Print (line : string).

(** A computation yields the events it performed, in order, and either a
    value or the exception that ended it. *)
Definition M (A : Type) : Type := (list event * res A)%type.

Definition ret {A} (a : A) : M A := ([], Ret a).

Definition bind {A B} (m : M A) (k : A -> M B) : M B :=
  match m with
  | (t, Ret a) => let (t', r) := k a in ((t ++ t')%list, r)
  | (t, Raise e) => (t, Raise e)
  end.

Definition raise {A} (e : exn) : M A := ([], Raise e).

(** An expression whose evaluation is not observed. *)
Definition lift {A} (r : res A) : M A := ([], r).

(** An expression whose evaluation is recorded as [ev]. *)
Definition call {A} (ev : event) (r : res A) : M A := ([ev], r).

(** [try: body except C as e: handler e] with [catches e] for
    [isinstance(e, C)]. *)
Definition try_except {A} (body : M A) (catches : exn -> bool)
    (handler : exn -> M A) : M A :=
  match body with
  | (t, Raise e) =>
      if catches e
      then let (t', r) := handler e in ((t ++ t')%list, r)
      else (t, Raise e)
  | (t, Ret a) => (t, Ret a)
  end.

(** [try: body finally: cleanup]: the cleanup always runs; an exception it
    raises replaces whatever the body left. *)
Definition try_finally {A} (body : M A) (cleanup : M unit) : M A :=
  let (t, r) := body in
  match cleanup with
  | (t', Ret _) => ((t ++ t')%list, r)
  | (t', Raise e) => ((t ++ t')%list, Raise e)
  end.

Notation "x <- m ;; k" := (bind m (fun x => k))
  (at level 61, m at next level, right associativity).
Notation "m ;; k" := (bind m (fun _ => k))
  (at level 61, right associativity).

(** [print(s, file=sys.stdout)] *)
Definition print (s : string) : M unit := call (Print s) (Ret tt).

(** [sys.exit(code)] *)
Definition sys_exit {A} (code : Z) : M A := raise (SystemExit code).

(** ** The collaborators and the world of one run *)

(** What [from core.rule_engine import RuleEngine] binds: the constructor
    [RuleEngine()] and the method [evaluate_rules]. *)
Record RuleEngineClass : Type := {
  new_engine : res Engine;
  evaluate_rules : Engine -> RuleSet -> pyobj -> res pyobj
}.

(** What [from core.config_loader import load_rules] binds. *)
Definition loader : Type := string -> res RuleSet.

Record World : Type := {
  (** [os.environ.get] *)
  environ : string -> option string;
  (** [os.path.abspath(__file__)] *)
  abspath_file : string;
  (** [sys.path] when the script starts *)
  sys_path : list string;
  (** the text on standard input *)
  stdin : string;
  (** the two [import] statements, resolved along a given [sys.path] *)
  config_loader : list string -> res loader;
  rule_engine : list string -> res RuleEngineClass
}.

(** ** Module bootstrap (lines 14-28) *)

Definition script_dir_parent (w : World) : string :=
  dirname (dirname (abspath_file w)).

Definition PLUGIN_ROOT (w : World) : string :=
  match environ w "CLAUDE_PLUGIN_ROOT" with
  | Some v => if is_empty v then script_dir_parent w else v
  | None => script_dir_parent w
  end.

(** [sys.path] after [if PLUGIN_ROOT not in sys.path: sys.path.insert(0, PLUGIN_ROOT)] *)
Definition sys_path_after (w : World) : list string :=
  if existsb (String.eqb (PLUGIN_ROOT w)) (sys_path w)
  then sys_path w
  else PLUGIN_ROOT w :: sys_path w.

Definition imports (w : World) : M (loader * RuleEngineClass) :=
  load_rules <- lift (config_loader w (sys_path_after w)) ;;
  cls <- lift (rule_engine w (sys_path_after w)) ;;
  ret (load_rules, cls).

Definition import_handler {A} (e : exn) : M A :=
  s <- lift (json_dumps (PyDict [])) ;;
  print s ;;
  sys_exit 0.

(** ** [main] (lines 31-55) *)

(** Calling a collaborator: the call is recorded with the arguments it is
    made with, and yields what the collaborator answers on them. *)
Definition invoke_load_rules (load_rules : loader) (ev : string) : M RuleSet :=
  call (Call_load_rules ev) (load_rules ev).

Definition invoke_RuleEngine (cls : RuleEngineClass) : M Engine :=
  call Call_RuleEngine (new_engine cls).

Definition invoke_evaluate_rules (cls : RuleEngineClass) (engine : Engine)
    (rules : RuleSet) (input_data : pyobj) : M pyobj :=
  call (Call_evaluate_rules rules input_data)
    (evaluate_rules cls engine rules input_data).

Definition main_try (w : World) (load_rules : loader) (cls : RuleEngineClass) : M unit :=
  input_data <- call Read_stdin (json_load (stdin w)) ;;
  rules <- invoke_load_rules load_rules "prompt" ;;
  engine <- invoke_RuleEngine cls ;;
  result <- invoke_evaluate_rules cls engine rules input_data ;;
  s <- lift (json_dumps result) ;;
  print s.

Definition error_output (e : exn) : pyobj :=
  PyDict [("systemMessage", PyStr ("Hookify error: " ++ py_str e))].

Definition main_except (e : exn) : M unit :=
  s <- lift (json_dumps (error_output e)) ;;
  print s.

Definition main (w : World) (load_rules : loader) (cls : RuleEngineClass) : M unit :=
  try_finally
    (try_except (main_try w load_rules cls) is_Exception main_except)
    (sys_exit 0).

(** The script run as [__main__]. *)
Definition script (w : World) : M unit :=
  mods <- try_except (imports w) is_ImportError import_handler ;;
  main w (fst mods) (snd mods).

(** ** The process *)

(** How the interpreter ends: with an exit status, or with an exception that
    nothing caught, which it reports as a traceback. *)
Inductive outcome : Type :=
| Exited (status : Z)
| Uncaught (e : exn).

(** The status the parent sees: 1 after a traceback, 130 after an uncaught
    [KeyboardInterrupt]. *)
Definition exit_status (o : outcome) : Z :=
  match o with
  | Exited status => status
  | Uncaught (BaseExc cls _) =>
      if String.eqb cls "KeyboardInterrupt" then 130 else 1
  | Uncaught _ => 1
  end.

(** The status of [sys.exit(code)]: the low eight bits of a code that fits a
    C [long], 255 for one that does not. *)
Definition exit_code (code : Z) : Z :=
  if ((- 2 ^ 63 <=? code) && (code <? 2 ^ 63))%Z%bool
  then (code mod 256)%Z
  else 255%Z.

Definition outcome_of (r : res unit) : outcome :=
  match r with
  | Ret _ => Exited 0
  | Raise (SystemExit code) => Exited (exit_code code)
  | Raise e => Uncaught e
  end.

Definition run (w : World) : list event * outcome :=
  let (t, r) := script w in (t, outcome_of r).

Fixpoint printed (t : list event) : list string :=
  match t with
  | [] => []
  | Print line :: t' => line :: printed t'
  | _ :: t' => printed t'
  end.

(** The lines written to standard output, one per [print]. *)
Definition stdout (w : World) : list string := printed (fst (run w)).

Definition status (w : World) : Z := exit_status (snd (run w)).

Definition exception_escapes (w : World) : Prop :=
  exists e, snd (run w) = Uncaught e.

(** ** The script on a standard output that may fail *)

(** Standard output as the script meets it: what [print(s, file=sys.stdout)]
    does with a line, return or raise, and whether the flush the interpreter
    makes at exit succeeds, given the lines printed.  A block-buffered file on
    a full device takes every [print] and fails the flush; an unbuffered one
    raises [OSError] in [print]. *)
Record device : Type := {
  dev_print : string -> res unit;
  dev_flush : list string -> bool
}.

Definition print_on (d : device) (s : string) : M unit :=
  match dev_print d s with
  | Ret _ => call (Print s) (Ret tt)
  | Raise e => raise e
  end.

Definition import_handler_on {A} (d : device) (e : exn) : M A :=
  s <- lift (json_dumps (PyDict [])) ;;
  print_on d s ;;
  sys_exit 0.

Definition main_try_on (d : device) (w : World) (load_rules : loader)
    (cls : RuleEngineClass) : M unit :=
  input_data <- call Read_stdin (json_load (stdin w)) ;;
  rules <- invoke_load_rules load_rules "prompt" ;;
  engine <- invoke_RuleEngine cls ;;
  result <- invoke_evaluate_rules cls engine rules input_data ;;
  s <- lift (json_dumps result) ;;
  print_on d s.

Definition main_except_on (d : device) (e : exn) : M unit :=
  s <- lift (json_dumps (error_output e)) ;;
  print_on d s.

Definition main_on (d : device) (w : World) (load_rules : loader)
    (cls : RuleEngineClass) : M unit :=
  try_finally
    (try_except (main_try_on d w load_rules cls) is_Exception (main_except_on d))
    (sys_exit 0).

Definition script_on (d : device) (w : World) : M unit :=
  mods <- try_except (imports w) is_ImportError (import_handler_on d) ;;
  main_on d w (fst mods) (snd mods).

Definition run_on (d : device) (w : World) : list event * outcome :=
  let (t, r) := script_on d w in (t, outcome_of r).

Definition stdout_on (d : device) (w : World) : list string :=
  printed (fst (run_on d w)).

(** The status of the process: 120 when the flush at exit fails, whatever
    the script left. *)
Definition status_on (d : device) (w : World) : Z :=
  if dev_flush d (stdout_on d w)
  then exit_status (snd (run_on d w))
  else 120%Z.

Definition exception_escapes_on (d : device) (w : World) : Prop :=
  exists e, snd (run_on d w) = Uncaught e.

(** ** Conditions on a run *)

(** Both imports bind their names. *)
Definition imported (w : World) (lr : loader) (cls : RuleEngineClass) : Prop :=
  config_loader w (sys_path_after w) = Ret lr
  /\ rule_engine w (sys_path_after w) = Ret cls.

(** One of the two imports raises [e]. *)
Definition import_raises (w : World) (e : exn) : Prop :=
  config_loader w (sys_path_after w) = Raise e
  \/ (exists lr, config_loader w (sys_path_after w) = Ret lr
                 /\ rule_engine w (sys_path_after w) = Raise e).

(** The loader or the evaluator raises [e] in the run of [w]. *)
Definition collaborator_raises (w : World) (lr : loader) (cls : RuleEngineClass)
    (e : exn) : Prop :=
  exists input,
    json_load (stdin w) = Ret input
    /\ (lr "prompt" = Raise e
        \/ exists rules engine,
             lr "prompt" = Ret rules
             /\ new_engine cls = Ret engine
             /\ evaluate_rules cls engine rules input = Raise e).

End Hook.

Arguments Read_stdin {RuleSet}.
Arguments Call_load_rules {RuleSet} ev.
Arguments Call_RuleEngine {RuleSet}.
Arguments Print {RuleSet} line.

(** ** Observations on a trace *)

Section Observations.

Variable RuleSet : Type.

(** The arguments of the calls to [load_rules], in order. *)
Fixpoint loader_calls (t : list (event RuleSet)) : list string :=
  match t with
  | [] => []
  | Call_load_rules ev :: t' => ev :: loader_calls t'
  | _ :: t' => loader_calls t'
  end.

(** The arguments of the calls to [evaluate_rules], in order. *)
Fixpoint evaluator_calls (t : list (event RuleSet)) : list (RuleSet * pyobj) :=
  match t with
  | [] => []
  | Call_evaluate_rules rules input_data :: t' =>
      (rules, input_data) :: evaluator_calls t'
  | _ :: t' => evaluator_calls t'
  end.

End Observations.

(** The text [json.dumps({"systemMessage": v})]. *)
Definition systemMessage_document (v : string) : string :=
  "{" ++ (encode_basestring_ascii "systemMessage" ++ ": "
             ++ encode_basestring_ascii v) ++ "}".

(** What the [except Exception] clause leaves on standard output for an
    exception that ends the [try] block: the error object when it catches the
    exception, nothing when it does not. *)
Definition error_lines (e : exn) : list string :=
  if is_Exception e
  then [systemMessage_document ("Hookify error: " ++ py_str e)]
  else [].

(** The world [w] with [CLAUDE_PLUGIN_ROOT] set to [v], or unset for [None];
    nothing else changes. *)
Definition with_plugin_root_env {RuleSet Engine : Type}
    (w : World RuleSet Engine) (v : option string) : World RuleSet Engine :=
  {| environ := fun k => if String.eqb k "CLAUDE_PLUGIN_ROOT" then v else environ w k;
     abspath_file := abspath_file w;
     sys_path := sys_path w;
     stdin := stdin w;
     config_loader := config_loader w;
     rule_engine := rule_engine w |}.

(** [os.path.isabs] (posixpath): the path starts with a separator. *)
Definition is_abs (p : string) : bool :=
  match p with
  | EmptyString => false
  | String c _ => is_sep c
  end.

(** The world [w] started with another [sys.path]. *)
Definition with_sys_path {RuleSet Engine : Type}
    (w : World RuleSet Engine) (path : list string) : World RuleSet Engine :=
  {| environ := environ w;
     abspath_file := abspath_file w;
     sys_path := path;
     stdin := stdin w;
     config_loader := config_loader w;
     rule_engine := rule_engine w |}.

(** [RuleEngine()] is evaluated somewhere in the trace. *)
Fixpoint engine_built {RuleSet : Type} (t : list (event RuleSet)) : bool :=
  match t with
  | [] => false
  | Call_RuleEngine :: _ => true
  | _ :: t' => engine_built t'
  end.

(** ** Sample worlds *)

Module Sample.

(** A stand-in for [json.load] on the documents of the example scenarios:
    it knows two objects, takes [NaN], [Infinity] and [-Infinity] for floats
    as the library does by default, and rejects every other text the way the
    library rejects [not-json]. *)
Definition prompt_hello_text : string :=
  "{" ++ dquote ++ "prompt" ++ dquote ++ ": " ++ dquote ++ "hello" ++ dquote ++ "}".

Definition json_load (text : string) : res pyobj :=
  if String.eqb text "{}" then Ret (PyDict [])
  else if String.eqb text prompt_hello_text then Ret (PyDict [("prompt", PyStr "hello")])
  else if String.eqb text "NaN" then Ret (PyNonFinite NaN)
  else if String.eqb text "Infinity" then Ret (PyNonFinite PosInfinity)
  else if String.eqb text "-Infinity" then Ret (PyNonFinite NegInfinity)
  else Raise (JSONDecodeError "Expecting value: line 1 column 1 (char 0)").

(** Rule sets are lists of rule names; the engine has no state. *)
Definition rule_set : Type := list string.
Definition engine : Type := unit.

Definition plugin_dir : string := "/plugins/hookify".
Definition script_path : string := "/plugins/hookify/hooks/userpromptsubmit.py".

(** The package [core] lives under [plugin_dir]. *)
Definition find_core {A} (bound : A) (path : list string) : res A :=
  if existsb (String.eqb plugin_dir) path
  then Ret bound
  else Raise (ImportError "No module named 'core'").

Definition load_all : loader rule_set := fun ev => Ret [ev ++ "-rule"].

Definition engine_passing : RuleEngineClass rule_set engine :=
  {| new_engine := Ret tt;
     evaluate_rules := fun _ _ _ => Ret (PyDict []) |}.

Definition engine_blocking : RuleEngineClass rule_set engine :=
  {| new_engine := Ret tt;
     evaluate_rules := fun _ _ _ =>
       Ret (PyDict [("systemMessage", PyStr "blocked: dangerous command")]) |}.

Definition engine_failing : RuleEngineClass rule_set engine :=
  {| new_engine := Ret tt;
     evaluate_rules := fun _ _ _ => Raise (Exc "ValueError" "boom") |}.

Definition no_env : string -> option string := fun _ => None.

Definition env_root (v : string) : string -> option string :=
  fun k => if String.eqb k "CLAUDE_PLUGIN_ROOT" then Some v else None.

(** Scenario 1: valid input, modules found, the evaluator returns [{}]. *)
Definition w_pass : World rule_set engine :=
  {| environ := no_env;
     abspath_file := script_path;
     sys_path := ["/usr/lib/python3"];
     stdin := prompt_hello_text;
     config_loader := find_core load_all;
     rule_engine := find_core engine_passing |}.

(** Scenario 2: the input is not JSON. *)
Definition w_not_json : World rule_set engine :=
  {| environ := no_env;
     abspath_file := script_path;
     sys_path := ["/usr/lib/python3"];
     stdin := "not-json";
     config_loader := find_core load_all;
     rule_engine := find_core engine_passing |}.

(** Scenario 3: the script sits elsewhere and [core] is not found. *)
Definition w_missing : World rule_set engine :=
  {| environ := no_env;
     abspath_file := "/tmp/copy/hooks/userpromptsubmit.py";
     sys_path := ["/usr/lib/python3"];
     stdin := "not-json";
     config_loader := find_core load_all;
     rule_engine := find_core engine_passing |}.

(** Scenario 4: the evaluator answers with a message. *)
Definition w_block : World rule_set engine :=
  {| environ := env_root plugin_dir;
     abspath_file := "/tmp/copy/hooks/userpromptsubmit.py";
     sys_path := ["/usr/lib/python3"];
     stdin := prompt_hello_text;
     config_loader := find_core load_all;
     rule_engine := find_core engine_blocking |}.

(** The evaluator raises [ValueError("boom")]. *)
Definition w_eval_raises : World rule_set engine :=
  {| environ := no_env;
     abspath_file := script_path;
     sys_path := ["/usr/lib/python3"];
     stdin := prompt_hello_text;
     config_loader := find_core load_all;
     rule_engine := find_core engine_failing |}.

(** The loader leaves through [sys.exit(3)]. *)
Definition w_loader_exits : World rule_set engine :=
  {| environ := no_env;
     abspath_file := script_path;
     sys_path := ["/usr/lib/python3"];
     stdin := prompt_hello_text;
     config_loader := find_core (fun _ => Raise (SystemExit 3));
     rule_engine := find_core engine_passing |}.

(** [core/rule_engine.py] is found but its body does not compile. *)
Definition w_broken_module : World rule_set engine :=
  {| environ := no_env;
     abspath_file := script_path;
     sys_path := ["/usr/lib/python3"];
     stdin := prompt_hello_text;
     config_loader := find_core load_all;
     rule_engine := fun _ => Raise (Exc "SyntaxError" "invalid syntax (rule_engine.py, line 1)") |}.

(** [CLAUDE_PLUGIN_ROOT] is set to the empty string. *)
Definition w_empty_root : World rule_set engine :=
  {| environ := env_root EmptyString;
     abspath_file := script_path;
     sys_path := ["/usr/lib/python3"];
     stdin := prompt_hello_text;
     config_loader := find_core load_all;
     rule_engine := find_core engine_passing |}.

(** The evaluator returns an object [json.dumps] has no rule for. *)
Definition w_unserializable : World rule_set engine :=
  {| environ := no_env;
     abspath_file := script_path;
     sys_path := ["/usr/lib/python3"];
     stdin := prompt_hello_text;
     config_loader := find_core load_all;
     rule_engine := find_core
       {| new_engine := Ret tt;
          evaluate_rules := fun _ _ _ => Ret (PyList [PyOpaque "set"]) |} |}.

(** Standard output takes everything. *)
Definition reliable : device :=
  {| dev_print := fun _ => Ret tt;
     dev_flush := fun _ => true |}.

Definition no_space : exn := Exc "OSError" "[Errno 28] No space left on device".

(** Standard output is a block-buffered file on a full device: [print] fills
    the buffer, the flush at exit fails when there is something to write. *)
Definition full_buffered : device :=
  {| dev_print := fun _ => Ret tt;
     dev_flush := fun lines => match lines with [] => true | _ => false end |}.

(** The same device without buffering: [print] itself raises. *)
Definition full_unbuffered : device :=
  {| dev_print := fun _ => Raise no_space;
     dev_flush := fun _ => true |}.

(** Standard input holds [NaN], which is not JSON. *)
Definition w_nan : World rule_set engine :=
  {| environ := no_env;
     abspath_file := script_path;
     sys_path := ["/usr/lib/python3"];
     stdin := "NaN";
     config_loader := find_core load_all;
     rule_engine := find_core engine_passing |}.

(** The evaluator returns a dictionary that contains itself. *)
Definition circular_reference : exn :=
  Exc "ValueError" "Circular reference detected".

Definition engine_circular : RuleEngineClass rule_set engine :=
  {| new_engine := Ret tt;
     evaluate_rules := fun _ _ _ =>
       Ret (PyDict [("self", PyRejected circular_reference)]) |}.

Definition w_circular : World rule_set engine :=
  {| environ := no_env;
     abspath_file := script_path;
     sys_path := ["/usr/lib/python3"];
     stdin := prompt_hello_text;
     config_loader := find_core load_all;
     rule_engine := find_core engine_circular |}.

End Sample.

(** * Properties *)

(** ** The library fragments on concrete inputs *)

Example dirname_script :
  dirname "/plugins/hookify/hooks/userpromptsubmit.py" = "/plugins/hookify/hooks".
Proof. reflexivity. Qed.

Example dirname_root : dirname "/usr" = "/" /\ dirname "//" = "//" /\ dirname "a.py" = EmptyString.
Proof. repeat split. Qed.

Example dumps_nested :
  json_dumps (PyDict [("a", PyList [PyInt 1; PyNone; PyBool true]); ("b", PyInt (-2))])
  = Ret ("{" ++ dquote ++ "a" ++ dquote ++ ": [1, null, true], "
             ++ dquote ++ "b" ++ dquote ++ ": -2}").
Proof. reflexivity. Qed.

Example dumps_opaque :
  json_dumps (PyList [PyInt 1; PyOpaque "set"])
  = Raise (Exc "TypeError" "Object of type set is not JSON serializable").
Proof. reflexivity. Qed.


Example dumps_nonfinite :
  json_dumps (PyList [PyNonFinite NaN; PyNonFinite NegInfinity])
  = Ret "[NaN, -Infinity]".
Proof. reflexivity. Qed.

Example dumps_rejected :
  json_dumps (PyDict [("self", PyRejected Sample.circular_reference)])
  = Raise (Exc "ValueError" "Circular reference detected").
Proof. reflexivity. Qed.

Example json_texts :
  map is_json_text
    ["{}"; " [1, -2.5e3, null, true] "; Sample.prompt_hello_text;
     "not-json"; "NaN"; "-Infinity"; "[1,]"; "01"; EmptyString]
  = [true; true; true; false; false; false; false; false; false].
Proof. reflexivity. Qed.

Example exit_codes :
  map exit_code [0; 3; 256; -1; 2 ^ 32 + 3; 2 ^ 63 - 1; 2 ^ 63; 2 ^ 64; - 2 ^ 63 - 1]%Z
  = [0; 3; 0; 255; 3; 255; 255; 255; 255]%Z.
Proof. reflexivity. Qed.

(** ** The example scenarios, run *)

Example scenario_1 :
  run Sample.json_load Sample.w_pass
  = ([Read_stdin; Call_load_rules "prompt"; Call_RuleEngine;
      Call_evaluate_rules ["prompt-rule"] (PyDict [("prompt", PyStr "hello")]);
      Print "{}"], Exited 0).
Proof. reflexivity. Qed.

Example scenario_2 :
  stdout Sample.json_load Sample.w_not_json
  = [systemMessage_document "Hookify error: Expecting value: line 1 column 1 (char 0)"]
  /\ status Sample.json_load Sample.w_not_json = 0%Z.
Proof. split; reflexivity. Qed.

Example scenario_3 :
  run Sample.json_load Sample.w_missing = ([Print "{}"], Exited 0).
Proof. reflexivity. Qed.

Example scenario_4 :
  stdout Sample.json_load Sample.w_block
  = [systemMessage_document "blocked: dangerous command"]
  /\ status Sample.json_load Sample.w_block = 0%Z.
Proof. split; reflexivity. Qed.

Example scenario_unserializable :
  stdout Sample.json_load Sample.w_unserializable
  = [systemMessage_document "Hookify error: Object of type set is not JSON serializable"].
Proof. reflexivity. Qed.

Example scenario_loader_exits :
  run Sample.json_load Sample.w_loader_exits
  = ([Read_stdin; Call_load_rules "prompt"], Exited 0).
Proof. reflexivity. Qed.

(** ** Strings *)

Lemma length_app (a b : string) :
  String.length (a ++ b) = String.length a + String.length b.
Proof.
  induction a as [|c a IH]; simpl; [reflexivity | now rewrite IH].
Qed.

Lemma escape_string_app (a b : string) :
  escape_string (a ++ b) = escape_string a ++ escape_string b.
Proof.
  induction a as [|c a IH]; simpl; [reflexivity|].
  rewrite IH. generalize (escape_char c) as x.
  induction x as [|d x IHx]; simpl; [reflexivity | now rewrite IHx].
Qed.

Lemma systemMessage_document_length (v : string) :
  String.length (systemMessage_document v)
  = 21 + String.length (escape_string v).
Proof.
  unfold systemMessage_document, encode_basestring_ascii.
  repeat (rewrite length_app; simpl).
  lia.
Qed.

Lemma dumps_systemMessage (v : string) :
  json_dumps (PyDict [("systemMessage", PyStr v)]) = Ret (systemMessage_document v).
Proof. reflexivity. Qed.

(** The prefixed message never reads the same as the bare text, as a string
    or as a printed document. *)
Lemma prefixed_differs (s : string) :
  "Hookify error: " ++ s <> s
  /\ systemMessage_document ("Hookify error: " ++ s) <> systemMessage_document s.
Proof.
  split; intro H.
  - apply (f_equal String.length) in H. rewrite length_app in H. simpl in H. lia.
  - apply (f_equal String.length) in H.
    rewrite !systemMessage_document_length, escape_string_app, length_app in H.
    simpl in H. lia.
Qed.

Lemma prefixed_nonempty (s : string) : "Hookify error: " ++ s <> EmptyString.
Proof. discriminate. Qed.

(** ** [dirname] on a path with plain components *)

Lemma app_assoc_string (a b c : string) : (a ++ b) ++ c = a ++ b ++ c.
Proof.
  induction a as [|x a IH]; simpl; [reflexivity | now rewrite IH].
Qed.

Lemma rfind_no_sep (n : string) : no_sep n = true -> rfind_sep_succ n = 0.
Proof.
  induction n as [|c n IH]; simpl; [reflexivity|].
  intros H. apply andb_prop in H. destruct H as [Hc Hn].
  rewrite (IH Hn). destruct (is_sep c); [discriminate | reflexivity].
Qed.

Lemma rfind_last_sep (r n : string) :
  no_sep n = true -> rfind_sep_succ (r ++ "/" ++ n) = S (String.length r).
Proof.
  intros Hn. induction r as [|c r IH]; simpl in *.
  - now rewrite (rfind_no_sep n Hn).
  - now rewrite IH.
Qed.

Lemma substring_through_sep (r n : string) :
  substring 0 (S (String.length r)) (r ++ "/" ++ n) = r ++ "/".
Proof.
  induction r as [|c r IH].
  - simpl. now destruct n.
  - simpl in *. now rewrite IH.
Qed.

Lemma ends_plain_not_all_sep (r : string) :
  ends_plain r = true -> all_sep (r ++ "/") = false.
Proof.
  induction r as [|c r IH]; [discriminate|].
  destruct r as [|d r].
  - simpl. now destruct (is_sep c).
  - intros H. specialize (IH H).
    cbn [append all_sep] in *. rewrite IH. apply andb_false_r.
Qed.

Lemma rstrip_after_plain (r : string) :
  ends_plain r = true -> rstrip_sep (r ++ "/") = r.
Proof.
  induction r as [|c r IH]; [discriminate|].
  destruct r as [|d r].
  - simpl. now destruct (is_sep c).
  - intros H. specialize (IH H).
    cbn [append rstrip_sep] in *. now rewrite IH.
Qed.

Lemma dirname_child (r n : string) :
  ends_plain r = true -> no_sep n = true -> dirname (r ++ "/" ++ n) = r.
Proof.
  intros Hr Hn. unfold dirname.
  rewrite (rfind_last_sep r n Hn), substring_through_sep.
  rewrite (ends_plain_not_all_sep r Hr).
  destruct r as [|c r]; [discriminate|].
  simpl is_empty. simpl andb. cbv iota.
  exact (rstrip_after_plain (String c r) Hr).
Qed.

Lemma ends_plain_of_no_sep (d : string) :
  no_sep d = true -> d <> EmptyString -> ends_plain d = true.
Proof.
  induction d as [|c d IH]; [congruence|].
  intros H _. simpl in H. apply andb_prop in H. destruct H as [Hc Hd].
  destruct d as [|e d]; [exact Hc|].
  apply IH; [exact Hd | discriminate].
Qed.

Lemma ends_plain_app (r d : string) :
  ends_plain d = true -> ends_plain (r ++ d) = true.
Proof.
  intros Hd. induction r as [|c r IH]; [exact Hd|].
  simpl. destruct (r ++ d) eqn:E; [|exact IH].
  simpl in IH. discriminate.
Qed.

(** Two [dirname]s take [root/d/f] to [root]. *)
Lemma dirname_two_up (root d f : string) :
  ends_plain root = true ->
  no_sep d = true -> d <> EmptyString ->
  no_sep f = true ->
  dirname (dirname (root ++ "/" ++ d ++ "/" ++ f)) = root.
Proof.
  intros Hroot Hd Hne Hf.
  replace (root ++ "/" ++ d ++ "/" ++ f) with ((root ++ "/" ++ d) ++ "/" ++ f)
    by (rewrite !app_assoc_string; reflexivity).
  rewrite dirname_child.
  - now apply dirname_child.
  - apply ends_plain_app. change ("/" ++ d) with (String "/" d).
    destruct d as [|c d]; [congruence|].
    apply (ends_plain_of_no_sep Hd Hne).
  - exact Hf.
Qed.

(** ** The script, phase by phase *)

Section Facts.

Variable RuleSet : Type.
Variable Engine : Type.
Variable json_load : string -> res pyobj.

Local Abbreviation World := (World RuleSet Engine).
Local Abbreviation loader := (loader RuleSet).
Local Abbreviation RuleEngineClass := (RuleEngineClass RuleSet Engine).

Implicit Types (w : World) (lr : loader) (cls : RuleEngineClass) (e : exn).

Ltac unfold_script :=
  unfold stdout, status, exception_escapes, run, script, imports, import_handler,
    main, try_finally, try_except, bind, lift, call, print, sys_exit, raise, ret.

Lemma script_imported w lr cls :
  imported w lr cls -> script json_load w = main json_load w lr cls.
Proof.
  intros [Hl Hc]. unfold script, imports, try_except, bind, lift, ret.
  rewrite Hl, Hc. simpl. now destruct (main json_load w lr cls).
Qed.

Lemma script_import_error w e :
  import_raises w e -> is_ImportError e = true ->
  script json_load w = ([Print "{}"], Raise (SystemExit 0)).
Proof.
  intros [Hl | [lr [Hl Hc]]] He; unfold_script; rewrite Hl; try rewrite Hc;
    simpl; rewrite He; reflexivity.
Qed.

Lemma script_import_crash w e :
  import_raises w e -> is_ImportError e = false ->
  script json_load w = ([], Raise e).
Proof.
  intros [Hl | [lr [Hl Hc]]] He; unfold_script; rewrite Hl; try rewrite Hc;
    simpl; rewrite He; reflexivity.
Qed.

(** The imports either bind both names or raise. *)
Lemma imports_cases w :
  (exists lr cls, imported w lr cls) \/ (exists e, import_raises w e).
Proof.
  unfold imported, import_raises.
  destruct (config_loader w (sys_path_after w)) as [lr|e] eqn:Hl.
  - destruct (rule_engine w (sys_path_after w)) as [cls|e] eqn:Hc.
    + left. now exists lr, cls.
    + right. exists e. right. now exists lr.
  - right. exists e. now left.
Qed.


(** The [try] block prints last: when it raises, nothing was printed. *)
Lemma main_try_raise_silent w lr cls e :
  snd (main_try json_load w lr cls) = Raise e ->
  printed (fst (main_try json_load w lr cls)) = [].
Proof.
  unfold main_try, invoke_load_rules, invoke_RuleEngine,
    invoke_evaluate_rules, bind, call, lift, print.
  destruct (json_load (stdin w)) as [input|]; [|reflexivity].
  destruct (lr "prompt") as [rules|]; [|reflexivity].
  destruct (new_engine cls) as [engine|]; [|reflexivity].
  destruct (evaluate_rules cls engine rules input) as [result|]; [|reflexivity].
  destruct (json_dumps result); [discriminate | reflexivity].
Qed.

Lemma printed_app (t1 t2 : list (event RuleSet)) :
  printed (t1 ++ t2) = (printed t1 ++ printed t2)%list.
Proof.
  induction t1 as [|ev t1 IH]; [reflexivity|].
  destruct ev; simpl; now rewrite IH.
Qed.

(** The [except Exception] branch: what [main] does when the [try] block
    raises an [Exception]. *)
Lemma main_error_path w lr cls e :
  snd (main_try json_load w lr cls) = Raise e ->
  is_Exception e = true ->
  main json_load w lr cls
  = ((fst (main_try json_load w lr cls)
        ++ [Print (systemMessage_document ("Hookify error: " ++ py_str e))])%list,
     Raise (SystemExit 0)).
Proof.
  intros Hr He. unfold main, try_finally, try_except, sys_exit, raise.
  destruct (main_try json_load w lr cls) as [t r]. simpl in Hr. subst r.
  rewrite He. simpl. now rewrite app_nil_r.
Qed.

(** An exception outside [Exception] passes the handler; the [finally]
    block still turns it into [sys.exit(0)]. *)
Lemma main_base_exception_path w lr cls e :
  snd (main_try json_load w lr cls) = Raise e ->
  is_Exception e = false ->
  main json_load w lr cls
  = (fst (main_try json_load w lr cls), Raise (SystemExit 0)).
Proof.
  intros Hr He. unfold main, try_finally, try_except, sys_exit, raise.
  destruct (main_try json_load w lr cls) as [t r]. simpl in Hr. subst r.
  rewrite He. now rewrite app_nil_r.
Qed.

Lemma main_success_path w lr cls :
  snd (main_try json_load w lr cls) = Ret tt ->
  main json_load w lr cls
  = (fst (main_try json_load w lr cls), Raise (SystemExit 0)).
Proof.
  intros Hr. unfold main, try_finally, try_except, sys_exit, raise.
  destruct (main_try json_load w lr cls) as [t r]. simpl in Hr. subst r.
  now rewrite app_nil_r.
Qed.

Lemma stdout_error_path w lr cls e :
  imported w lr cls ->
  snd (main_try json_load w lr cls) = Raise e ->
  is_Exception e = true ->
  stdout json_load w = [systemMessage_document ("Hookify error: " ++ py_str e)]
  /\ snd (run json_load w) = Exited 0.
Proof.
  intros Hi Hr He. unfold stdout, run.
  rewrite (script_imported Hi), (main_error_path _ _ _ Hr He). simpl.
  rewrite printed_app, (main_try_raise_silent _ _ _ Hr). now split.
Qed.

(** What [main_try] does once the input is parsed and both collaborators
    answer: four recorded steps, then the print or the encoder's error. *)
Lemma main_try_delegates w lr cls input rules engine result :
  json_load (stdin w) = Ret input ->
  lr "prompt" = Ret rules ->
  new_engine cls = Ret engine ->
  evaluate_rules cls engine rules input = Ret result ->
  main_try json_load w lr cls
  = match json_dumps result with
    | Ret s => ([Read_stdin; Call_load_rules "prompt"; Call_RuleEngine;
                 Call_evaluate_rules rules input; Print s], Ret tt)
    | Raise e => ([Read_stdin; Call_load_rules "prompt"; Call_RuleEngine;
                   Call_evaluate_rules rules input], Raise e)
    end.
Proof.
  intros Hj Hl He Hr. unfold main_try, invoke_load_rules, invoke_RuleEngine,
    invoke_evaluate_rules, bind, call, lift, print.
  rewrite Hj, Hl, He, Hr. now destruct (json_dumps result).
Qed.


(** On a standard output that may fail, the script with both names bound is
    [main] again. *)
Lemma script_on_imported d w lr cls :
  imported w lr cls -> script_on json_load d w = main_on json_load d w lr cls.
Proof.
  intros [Hl Hc]. unfold script_on, imports, try_except, bind, lift, ret.
  rewrite Hl, Hc. simpl. now destruct (main_on json_load d w lr cls).
Qed.

(** [main] leaves through [sys.exit(0)] whatever [print] does. *)
Lemma main_on_exits d w lr cls :
  snd (main_on json_load d w lr cls) = Raise (SystemExit 0).
Proof.
  unfold main_on, try_finally, sys_exit, raise.
  now destruct (try_except _ _ _).
Qed.

Lemma script_on_import_error d w e :
  import_raises w e -> is_ImportError e = true ->
  script_on json_load d w
  = match dev_print d "{}" with
    | Ret _ => ([Print "{}"], Raise (SystemExit 0))
    | Raise e' => ([], Raise e')
    end.
Proof.
  intros [Hl | [lr [Hl Hc]]] He;
    unfold script_on, imports, import_handler_on, print_on, try_except, bind,
      lift, call, sys_exit, raise, ret;
    rewrite Hl; try rewrite Hc; simpl; rewrite He;
    now destruct (dev_print d "{}").
Qed.

(** Where every [print] returns, the script does what [script] does. *)
Lemma script_on_agrees d w :
  (forall s, dev_print d s = Ret tt) ->
  script_on json_load d w = script json_load w.
Proof.
  intros Hd.
  assert (Hp : forall s, @print_on RuleSet d s = @print RuleSet s)
    by (intros s; unfold print_on, print; now rewrite Hd).
  assert (Hexc : forall e, @main_except_on RuleSet d e = @main_except RuleSet e)
    by (intros e; unfold main_except_on, main_except, bind, lift; simpl;
        now rewrite Hp).
  assert (Htry : forall lr cls,
             main_try_on json_load d w lr cls = main_try json_load w lr cls).
  { intros lr cls. unfold main_try_on, main_try, invoke_load_rules,
      invoke_RuleEngine, invoke_evaluate_rules, bind, call, lift.
    destruct (json_load (stdin w)) as [input|]; [|reflexivity].
    destruct (lr "prompt") as [rules|]; [|reflexivity].
    destruct (new_engine cls) as [engine|]; [|reflexivity].
    destruct (evaluate_rules cls engine rules input) as [result|]; [|reflexivity].
    destruct (json_dumps result) as [s|]; [|reflexivity].
    now rewrite Hp. }
  assert (Hmain : forall lr cls,
             main_on json_load d w lr cls = main json_load w lr cls).
  { intros lr cls. unfold main_on, main, try_finally, try_except.
    rewrite Htry. destruct (main_try json_load w lr cls) as [t [[]|e]];
      [reflexivity|].
    destruct (is_Exception e); [|reflexivity]. now rewrite Hexc. }
  unfold script_on, script, try_except, bind.
  destruct (imports w) as [t [mods|e]].
  - now rewrite Hmain.
  - destruct (is_ImportError e); [|reflexivity].
    unfold import_handler_on, import_handler, bind, lift. simpl.
    now rewrite Hp.
Qed.

Lemma run_on_agrees d w :
  (forall s, dev_print d s = Ret tt) ->
  run_on json_load d w = run json_load w.
Proof.
  intros Hd. unfold run_on, run. now rewrite (script_on_agrees d w Hd).
Qed.

(** ** The claims *)

(** C1, as amended.  Whenever the import phase raises nothing but
    [ImportError], the [print] of the import handler, where it is reached,
    returns, and the flush of standard output at exit succeeds, the process
    ends with exit status 0 and no exception leaves it, whatever standard
    input holds and whatever the parser, the loader, the engine constructor,
    the evaluator, the encoder or a [print] inside [main] raise. *)
Theorem exit_zero_on_writable_stdout d w :
  (forall e, import_raises w e -> is_ImportError e = true) ->
  ((exists e, import_raises w e) -> dev_print d "{}" = Ret tt) ->
  dev_flush d (stdout_on json_load d w) = true ->
  snd (run_on json_load d w) = Exited 0
  /\ status_on json_load d w = 0%Z
  /\ ~ exception_escapes_on json_load d w.
Proof.
  intros Hsettle Hprint Hflush.
  assert (Hrun : snd (run_on json_load d w) = Exited 0).
  { unfold run_on. destruct (imports_cases w) as [[lr [cls Hi]] | [e Hr]].
    - rewrite (script_on_imported d Hi).
      pose proof (main_on_exits d w lr cls) as Hm.
      destruct (main_on json_load d w lr cls) as [t r]. simpl in Hm. now subst r.
    - rewrite (script_on_import_error d Hr (Hsettle e Hr)).
      rewrite Hprint by now exists e. reflexivity. }
  unfold status_on, exception_escapes_on. rewrite Hflush, Hrun.
  repeat split. intros [e He]. discriminate.
Qed.

(** C2.  With both modules imported, valid JSON on standard input, and an
    evaluator that returns a serializable object, standard output holds
    exactly the serialization of that object and the exit status is 0. *)
Theorem result_passed_through w lr cls input rules engine result s :
  imported w lr cls ->
  json_load (stdin w) = Ret input ->
  lr "prompt" = Ret rules ->
  new_engine cls = Ret engine ->
  evaluate_rules cls engine rules input = Ret result ->
  json_dumps result = Ret s ->
  stdout json_load w = [s] /\ status json_load w = 0%Z.
Proof.
  intros Hi Hj Hl He Hr Hs.
  pose proof (main_try_delegates w lr cls Hj Hl He Hr) as Ht. rewrite Hs in Ht.
  unfold stdout, status, run. rewrite (script_imported Hi).
  rewrite main_success_path; rewrite Ht; split; reflexivity.
Qed.

(** C3, as amended.  When an import of the collaborator modules fails with
    [ImportError], which is how a module or a name that cannot be found
    fails, the process prints the document [{}] and nothing else, never
    reads standard input, and exits with status 0. *)
Theorem import_error_prints_empty_object w e :
  import_raises w e ->
  is_ImportError e = true ->
  stdout json_load w = ["{}"]
  /\ status json_load w = 0%Z
  /\ fst (run json_load w) = [Print "{}"].
Proof.
  intros Hr He. unfold stdout, status, run.
  rewrite (script_import_error Hr He). repeat split.
Qed.

(** C4, as amended.  With both modules imported and a standard input that
    [json.load] rejects by raising an [Exception], which is what it does for
    a malformed document ([JSONDecodeError]) and for bytes it cannot decode
    ([UnicodeDecodeError]), the process prints a JSON object whose key
    [systemMessage] holds a non-empty string, and exits with status 0. *)
Theorem rejected_input_reported w lr cls e :
  imported w lr cls ->
  json_load (stdin w) = Raise e ->
  is_Exception e = true ->
  exists v,
    v <> EmptyString
    /\ json_dumps (PyDict [("systemMessage", PyStr v)]) = Ret (systemMessage_document v)
    /\ stdout json_load w = [systemMessage_document v]
    /\ status json_load w = 0%Z.
Proof.
  intros Hi Hj He.
  assert (Hr : snd (main_try json_load w lr cls) = Raise e).
  { unfold main_try, bind, call. now rewrite Hj. }
  destruct (stdout_error_path Hi Hr He) as [Hout Hrun].
  exists ("Hookify error: " ++ py_str e).
  repeat split; try assumption.
  - discriminate.
  - unfold status. now rewrite Hrun.
Qed.

Lemma collaborator_raises_main_try w lr cls e :
  collaborator_raises json_load w lr cls e ->
  snd (main_try json_load w lr cls) = Raise e.
Proof.
  intros [input [Hj [Hl | [rules [engine [Hl [He Hr]]]]]]];
    unfold main_try, invoke_load_rules, invoke_RuleEngine,
    invoke_evaluate_rules, bind, call; rewrite Hj, Hl; try rewrite He, Hr; reflexivity.
Qed.

(** C5, as amended.  When [load_rules("prompt")] or [evaluate_rules] raises
    an exception [e] of class [Exception], the process prints the object
    whose key [systemMessage] holds ["Hookify error: "] followed by [str(e)],
    and exits with status 0. *)
Theorem collaborator_exception_reported w lr cls e :
  imported w lr cls ->
  collaborator_raises json_load w lr cls e ->
  is_Exception e = true ->
  stdout json_load w = [systemMessage_document ("Hookify error: " ++ py_str e)]
  /\ json_dumps (error_output e)
     = Ret (systemMessage_document ("Hookify error: " ++ py_str e))
  /\ status json_load w = 0%Z.
Proof.
  intros Hi Hc He.
  destruct (stdout_error_path Hi (collaborator_raises_main_try Hc) He) as [Hout Hrun].
  repeat split; try assumption.
  unfold status. now rewrite Hrun.
Qed.

Lemma main_trace_cases w lr cls :
  exists tail,
    fst (main json_load w lr cls) = (fst (main_try json_load w lr cls) ++ tail)%list
    /\ loader_calls tail = [] /\ evaluator_calls tail = [].
Proof.
  unfold main, try_finally, try_except, sys_exit, raise, main_except, bind, lift, print, call.
  destruct (main_try json_load w lr cls) as [t [[]|e]]; simpl.
  - exists []. now rewrite app_nil_r.
  - destruct (is_Exception e); simpl.
    + eexists. rewrite app_nil_r. repeat split.
    + exists []. now rewrite app_nil_r.
Qed.

Lemma loader_calls_app (t1 t2 : list (event RuleSet)) :
  loader_calls (t1 ++ t2) = (loader_calls t1 ++ loader_calls t2)%list.
Proof.
  induction t1 as [|ev t1 IH]; [reflexivity|].
  destruct ev; simpl; now rewrite IH.
Qed.

Lemma evaluator_calls_app (t1 t2 : list (event RuleSet)) :
  evaluator_calls (t1 ++ t2) = (evaluator_calls t1 ++ evaluator_calls t2)%list.
Proof.
  induction t1 as [|ev t1 IH]; [reflexivity|].
  destruct ev; simpl; now rewrite IH.
Qed.

(** The calls [main_try] makes once the input is parsed. *)
Lemma main_try_calls w lr cls input :
  json_load (stdin w) = Ret input ->
  loader_calls (fst (main_try json_load w lr cls)) = ["prompt"]
  /\ (forall rules' input',
        In (rules', input') (evaluator_calls (fst (main_try json_load w lr cls))) ->
        lr "prompt" = Ret rules' /\ input' = input).
Proof.
  intros Hj. unfold main_try, invoke_load_rules, invoke_RuleEngine,
    invoke_evaluate_rules, bind, call, lift, print. rewrite Hj.
  destruct (lr "prompt") as [rules|]; simpl; [|split; [reflexivity | intros ? ? []]].
  destruct (new_engine cls) as [engine|]; simpl; [|split; [reflexivity | intros ? ? []]].
  destruct (evaluate_rules cls engine rules input) as [result|]; simpl.
  - destruct (json_dumps result); simpl; (split; [reflexivity|]);
      intros ? ? [H|[]]; inversion H; now subst.
  - split; [reflexivity|]. intros ? ? [H|[]]; inversion H; now subst.
Qed.

(** C6.  In a run that reaches the delegation step, that is with both
    modules imported and the input parsed, the loader is called exactly once,
    with ["prompt"]; when it returns a rule set and the engine is built, the
    next recorded call is the evaluator's, with that rule set and the parsed
    input, and no further call to either follows; and the evaluator is never
    called with anything else.  The calls are the real ones: what the run
    prints is decided by what the loader answers on ["prompt"] and by what
    the evaluator answers on the returned rule set and the parsed input. *)
Theorem delegation_calls w lr cls input :
  imported w lr cls ->
  json_load (stdin w) = Ret input ->
  loader_calls (fst (run json_load w)) = ["prompt"]
  /\ (forall rules engine,
        lr "prompt" = Ret rules ->
        new_engine cls = Ret engine ->
        exists rest,
          fst (run json_load w)
          = Read_stdin :: Call_load_rules "prompt" :: Call_RuleEngine
              :: Call_evaluate_rules rules input :: rest
          /\ loader_calls rest = [] /\ evaluator_calls rest = [])
  /\ (forall rules' input',
        In (rules', input') (evaluator_calls (fst (run json_load w))) ->
        lr "prompt" = Ret rules' /\ input' = input)
  /\ (forall e, lr "prompt" = Raise e -> stdout json_load w = error_lines e)
  /\ (forall rules engine,
        lr "prompt" = Ret rules ->
        new_engine cls = Ret engine ->
        stdout json_load w
        = match evaluate_rules cls engine rules input with
          | Ret result =>
              match json_dumps result with
              | Ret s => [s]
              | Raise e => error_lines e
              end
          | Raise e => error_lines e
          end).
Proof.
  intros Hi Hj.
  assert (Hsem :
    (forall e, lr "prompt" = Raise e -> stdout json_load w = error_lines e)
    /\ (forall rules engine,
          lr "prompt" = Ret rules ->
          new_engine cls = Ret engine ->
          stdout json_load w
          = match evaluate_rules cls engine rules input with
            | Ret result =>
                match json_dumps result with
                | Ret s => [s]
                | Raise e => error_lines e
                end
            | Raise e => error_lines e
            end)).
  { unfold stdout, run. rewrite (script_imported Hi).
    unfold main, main_try, invoke_load_rules, invoke_RuleEngine,
      invoke_evaluate_rules, main_except, try_finally, try_except, sys_exit,
      raise, bind, call, lift, print, error_lines.
    rewrite Hj. split.
    - intros e Hl. rewrite Hl. now destruct (is_Exception e).
    - intros rules engine Hl He. rewrite Hl, He.
      destruct (evaluate_rules cls engine rules input) as [result|e].
      + destruct (json_dumps result) as [s|e]; [reflexivity|].
        now destruct (is_Exception e).
      + now destruct (is_Exception e). }
  destruct Hsem as [Hsem1 Hsem2].
  unfold run. rewrite (script_imported Hi).
  destruct (main_trace_cases w lr cls) as [tail [Ht [Hlc Hec]]].
  destruct (main_try_calls w lr cls Hj) as [Hl1 Hl2].
  destruct (main json_load w lr cls) as [t r] eqn:Hmain. simpl in Ht |- *. subst t.
  split; [|split; [|split; [|split; [exact Hsem1 | exact Hsem2]]]].
  - now rewrite loader_calls_app, Hl1, Hlc.
  - intros rules engine Hl He.
    unfold main_try, invoke_load_rules, invoke_RuleEngine,
    invoke_evaluate_rules, bind, call, lift, print in *. rewrite Hj, Hl, He in *.
    destruct (evaluate_rules cls engine rules input) as [result|]; simpl.
    + destruct (json_dumps result); simpl; eexists; (split; [reflexivity|]);
        simpl; now split.
    + eexists; (split; [reflexivity|]); now split.
  - intros rules' input' Hin. rewrite evaluator_calls_app, Hec, app_nil_r in Hin.
    now apply Hl2.
Qed.

(** C7, as amended.  The plugin root is the value of [CLAUDE_PLUGIN_ROOT]
    when the variable is set to a non-empty string; when the variable is
    absent it is [dirname(dirname(abspath(__file__)))], which for a script at
    [root/d/f] is [root]; and it is on the [sys.path] the imports use. *)
Theorem plugin_root_resolution w :
  (forall v, environ w "CLAUDE_PLUGIN_ROOT" = Some v -> v <> EmptyString ->
             PLUGIN_ROOT w = v)
  /\ (environ w "CLAUDE_PLUGIN_ROOT" = None ->
      PLUGIN_ROOT w = dirname (dirname (abspath_file w))
      /\ forall root d f,
           abspath_file w = root ++ "/" ++ d ++ "/" ++ f ->
           ends_plain root = true -> no_sep d = true -> d <> EmptyString ->
           no_sep f = true ->
           PLUGIN_ROOT w = root)
  /\ In (PLUGIN_ROOT w) (sys_path_after w).
Proof.
  split; [|split].
  - intros v Hv Hne. unfold PLUGIN_ROOT. rewrite Hv.
    destruct v; [congruence | reflexivity].
  - intros Hv. unfold PLUGIN_ROOT, script_dir_parent. rewrite Hv.
    split; [reflexivity|]. intros root d f Hp Hroot Hd Hne Hf.
    rewrite Hp. now apply dirname_two_up.
  - unfold sys_path_after.
    destruct (existsb (String.eqb (PLUGIN_ROOT w)) (sys_path w)) eqn:E.
    + apply existsb_exists in E. destruct E as [x [Hin Hx]].
      apply String.eqb_eq in Hx. now subst x.
    + now left.
Qed.

(** [main] reads the world through its standard input only. *)
Lemma main_depends_on_stdin w w' lr cls :
  stdin w = stdin w' ->
  main json_load w lr cls = main json_load w' lr cls.
Proof.
  intros Hs. unfold main, main_try. now rewrite Hs.
Qed.

(** C8.  Two runs that differ only in the value of [CLAUDE_PLUGIN_ROOT], and
    in which both imports succeed and bind the same collaborators, perform
    the same events, write the same standard output and end alike. *)
Theorem override_keeps_output w (a b : option string) lr cls :
  imported (with_plugin_root_env w a) lr cls ->
  imported (with_plugin_root_env w b) lr cls ->
  stdout json_load (with_plugin_root_env w a)
  = stdout json_load (with_plugin_root_env w b)
  /\ run json_load (with_plugin_root_env w a)
     = run json_load (with_plugin_root_env w b).
Proof.
  intros Ha Hb.
  assert (Hrun : run json_load (with_plugin_root_env w a)
                 = run json_load (with_plugin_root_env w b)).
  { unfold run. rewrite (script_imported Ha), (script_imported Hb).
    now rewrite (@main_depends_on_stdin (with_plugin_root_env w a)
                   (with_plugin_root_env w b) lr cls eq_refl). }
  unfold stdout. now rewrite Hrun.
Qed.

(** C9.  On the runtime-error path, where the [try] block of [main] raises
    an [Exception] [e], the value printed under [systemMessage] is
    ["Hookify error: "] followed by [str(e)]; neither that value nor the
    printed document coincides with the one the bare text would give. *)
Theorem error_message_prefixed w lr cls e :
  imported w lr cls ->
  snd (main_try json_load w lr cls) = Raise e ->
  is_Exception e = true ->
  exists v,
    stdout json_load w = [systemMessage_document v]
    /\ v = "Hookify error: " ++ py_str e
    /\ v <> py_str e
    /\ systemMessage_document v <> systemMessage_document (py_str e).
Proof.
  intros Hi Hr He.
  destruct (stdout_error_path Hi Hr He) as [Hout _].
  destruct (prefixed_differs (py_str e)) as [Hv Hd].
  exists ("Hookify error: " ++ py_str e). now repeat split.
Qed.

(** C10.  Setting [CLAUDE_PLUGIN_ROOT] to the empty string is the same as
    leaving it unset: the plugin root is the one derived from the script's
    location, [sys.path] is updated alike, and the whole run is the same. *)
Theorem empty_root_as_unset w :
  PLUGIN_ROOT (with_plugin_root_env w (Some EmptyString))
  = dirname (dirname (abspath_file w))
  /\ PLUGIN_ROOT (with_plugin_root_env w (Some EmptyString))
     = PLUGIN_ROOT (with_plugin_root_env w None)
  /\ sys_path_after (with_plugin_root_env w (Some EmptyString))
     = sys_path_after (with_plugin_root_env w None)
  /\ run json_load (with_plugin_root_env w (Some EmptyString))
     = run json_load (with_plugin_root_env w None).
Proof.
  repeat split; reflexivity.
Qed.

End Facts.

(** ** The claims on the sample worlds *)

Lemma exit_zero_on_writable_stdout_witness :
  (snd (run_on Sample.json_load Sample.reliable Sample.w_eval_raises) = Exited 0
   /\ status_on Sample.json_load Sample.reliable Sample.w_eval_raises = 0%Z
   /\ ~ exception_escapes_on Sample.json_load Sample.reliable Sample.w_eval_raises)
  /\ (snd (run_on Sample.json_load Sample.full_unbuffered Sample.w_not_json) = Exited 0
      /\ status_on Sample.json_load Sample.full_unbuffered Sample.w_not_json = 0%Z
      /\ ~ exception_escapes_on Sample.json_load Sample.full_unbuffered Sample.w_not_json)
  /\ (snd (run_on Sample.json_load Sample.reliable Sample.w_missing) = Exited 0
      /\ status_on Sample.json_load Sample.reliable Sample.w_missing = 0%Z
      /\ ~ exception_escapes_on Sample.json_load Sample.reliable Sample.w_missing).
Proof.
  split; [|split].
  - apply exit_zero_on_writable_stdout.
    + intros e [H | [lr [_ H]]]; vm_compute in H; discriminate H.
    + intros _. reflexivity.
    + reflexivity.
  - apply exit_zero_on_writable_stdout.
    + intros e [H | [lr [_ H]]]; vm_compute in H; discriminate H.
    + intros [e [H | [lr [_ H]]]]; vm_compute in H; discriminate H.
    + reflexivity.
  - apply exit_zero_on_writable_stdout.
    + intros e [H | [lr [H _]]]; vm_compute in H.
      * inversion H. reflexivity.
      * discriminate H.
    + intros _. reflexivity.
    + reflexivity.
Defined.

(** C1 as stated fails in three ways.  A module that is found but whose
    body raises something other than [ImportError] ends the process with a
    traceback and status 1.  On a full device the run that prints the
    evaluator's answer ends with status 120, from the flush at exit.  And
    when [print] itself raises in the import handler, the [OSError] leaves
    the process. *)
Lemma exit_zero_always_counterexample :
  (import_raises Sample.w_broken_module
     (Exc "SyntaxError" "invalid syntax (rule_engine.py, line 1)")
   /\ status_on Sample.json_load Sample.reliable Sample.w_broken_module = 1%Z
   /\ exception_escapes_on Sample.json_load Sample.reliable Sample.w_broken_module)
  /\ (imported Sample.w_pass Sample.load_all Sample.engine_passing
      /\ stdout_on Sample.json_load Sample.full_buffered Sample.w_pass = ["{}"]
      /\ status_on Sample.json_load Sample.full_buffered Sample.w_pass = 120%Z)
  /\ (import_raises Sample.w_missing (ImportError "No module named 'core'")
      /\ snd (run_on Sample.json_load Sample.full_unbuffered Sample.w_missing)
         = Uncaught Sample.no_space
      /\ status_on Sample.json_load Sample.full_unbuffered Sample.w_missing = 1%Z).
Proof.
  split; [|split].
  - split; [|split].
    + right. exists Sample.load_all. split; reflexivity.
    + reflexivity.
    + eexists. reflexivity.
  - repeat split.
  - split; [|split].
    + left. reflexivity.
    + reflexivity.
    + reflexivity.
Qed.

Lemma result_passed_through_witness :
  stdout Sample.json_load Sample.w_block
  = [systemMessage_document "blocked: dangerous command"]
  /\ status Sample.json_load Sample.w_block = 0%Z.
Proof.
  apply (@result_passed_through _ _ Sample.json_load Sample.w_block
           Sample.load_all Sample.engine_blocking
           (PyDict [("prompt", PyStr "hello")]) ["prompt-rule"] tt
           (PyDict [("systemMessage", PyStr "blocked: dangerous command")]));
    try reflexivity.
  split; reflexivity.
Defined.

Lemma import_error_prints_empty_object_witness :
  stdout Sample.json_load Sample.w_missing = ["{}"]
  /\ status Sample.json_load Sample.w_missing = 0%Z
  /\ fst (run Sample.json_load Sample.w_missing) = [Print "{}"].
Proof.
  apply (@import_error_prints_empty_object _ _ Sample.json_load Sample.w_missing
           (ImportError "No module named 'core'")).
  - left. reflexivity.
  - reflexivity.
Defined.

(** C3 as stated fails: when the import of a module fails with an exception
    that is not an [ImportError], nothing is printed and the status is 1. *)
Lemma import_failure_counterexample :
  rule_engine Sample.w_broken_module (sys_path_after Sample.w_broken_module)
  = Raise (Exc "SyntaxError" "invalid syntax (rule_engine.py, line 1)")
  /\ stdout Sample.json_load Sample.w_broken_module = []
  /\ stdout Sample.json_load Sample.w_broken_module <> ["{}"]
  /\ status Sample.json_load Sample.w_broken_module <> 0%Z.
Proof.
  repeat split; discriminate.
Qed.

Lemma rejected_input_reported_witness :
  exists v,
    v <> EmptyString
    /\ json_dumps (PyDict [("systemMessage", PyStr v)]) = Ret (systemMessage_document v)
    /\ stdout Sample.json_load Sample.w_not_json = [systemMessage_document v]
    /\ status Sample.json_load Sample.w_not_json = 0%Z.
Proof.
  apply (@rejected_input_reported _ _ Sample.json_load Sample.w_not_json
           Sample.load_all Sample.engine_passing
           (JSONDecodeError "Expecting value: line 1 column 1 (char 0)")).
  - split; reflexivity.
  - reflexivity.
  - reflexivity.
Defined.

(** C4 as stated fails: [NaN] is not valid JSON, yet [json.load] takes it
    for a float, the run goes on to the evaluator, and what is printed is the
    evaluator's answer, which holds no [systemMessage]. *)
Lemma invalid_json_accepted_counterexample :
  is_json_text (stdin Sample.w_nan) = false
  /\ imported Sample.w_nan Sample.load_all Sample.engine_passing
  /\ Sample.json_load (stdin Sample.w_nan) = Ret (PyNonFinite NaN)
  /\ stdout Sample.json_load Sample.w_nan = ["{}"]
  /\ forall v, stdout Sample.json_load Sample.w_nan <> [systemMessage_document v].
Proof.
  repeat split.
  intros v H. change (stdout Sample.json_load Sample.w_nan) with ["{}"] in H.
  inversion H.
Qed.

Lemma collaborator_exception_reported_witness :
  stdout Sample.json_load Sample.w_eval_raises
  = [systemMessage_document "Hookify error: boom"]
  /\ json_dumps (error_output (Exc "ValueError" "boom"))
     = Ret (systemMessage_document "Hookify error: boom")
  /\ status Sample.json_load Sample.w_eval_raises = 0%Z.
Proof.
  apply (@collaborator_exception_reported _ _ Sample.json_load Sample.w_eval_raises
           Sample.load_all Sample.engine_failing (Exc "ValueError" "boom")).
  - split; reflexivity.
  - exists (PyDict [("prompt", PyStr "hello")]). split; [reflexivity|].
    right. exists ["prompt-rule"], tt. repeat split.
  - reflexivity.
Defined.

(** C5 as stated fails twice over.  When the evaluator raises
    [ValueError("boom")] the value printed is ["Hookify error: boom"], not
    ["boom"]; and when the loader leaves through [sys.exit(3)], which is not
    an [Exception], nothing is printed at all. *)
Lemma bare_exception_text_counterexample :
  (imported Sample.w_eval_raises Sample.load_all Sample.engine_failing
   /\ collaborator_raises Sample.json_load Sample.w_eval_raises
        Sample.load_all Sample.engine_failing (Exc "ValueError" "boom")
   /\ stdout Sample.json_load Sample.w_eval_raises
      = [systemMessage_document "Hookify error: boom"]
   /\ stdout Sample.json_load Sample.w_eval_raises
      <> [systemMessage_document (py_str (Exc "ValueError" "boom"))])
  /\ (imported Sample.w_loader_exits (fun _ => Raise (SystemExit 3)) Sample.engine_passing
      /\ collaborator_raises Sample.json_load Sample.w_loader_exits
           (fun _ => Raise (SystemExit 3)) Sample.engine_passing (SystemExit 3)
      /\ stdout Sample.json_load Sample.w_loader_exits = []).
Proof.
  split; repeat split.
  - exists (PyDict [("prompt", PyStr "hello")]). split; [reflexivity|].
    right. exists ["prompt-rule"], tt. repeat split.
  - vm_compute. discriminate.
  - exists (PyDict [("prompt", PyStr "hello")]). split; [reflexivity|].
    left. reflexivity.
Qed.

Lemma delegation_calls_witness :
  loader_calls (fst (run Sample.json_load Sample.w_block)) = ["prompt"]
  /\ (exists rest,
        fst (run Sample.json_load Sample.w_block)
        = Read_stdin :: Call_load_rules "prompt" :: Call_RuleEngine
            :: Call_evaluate_rules ["prompt-rule"] (PyDict [("prompt", PyStr "hello")])
            :: rest
        /\ loader_calls rest = [] /\ evaluator_calls rest = [])
  /\ stdout Sample.json_load Sample.w_block
     = [systemMessage_document "blocked: dangerous command"].
Proof.
  destruct (@delegation_calls _ _ Sample.json_load Sample.w_block
              Sample.load_all Sample.engine_blocking
              (PyDict [("prompt", PyStr "hello")]))
    as [Hloader [Hnext [_ [_ Hanswer]]]].
  - split; reflexivity.
  - reflexivity.
  - split; [exact Hloader | split].
    + apply (Hnext ["prompt-rule"] tt); reflexivity.
    + exact (Hanswer ["prompt-rule"] tt eq_refl eq_refl).
Defined.

Lemma plugin_root_resolution_witness :
  PLUGIN_ROOT Sample.w_block = "/plugins/hookify"
  /\ PLUGIN_ROOT Sample.w_pass = "/plugins/hookify"
  /\ In (PLUGIN_ROOT Sample.w_pass) (sys_path_after Sample.w_pass).
Proof.
  split; [|split].
  - apply (proj1 (plugin_root_resolution Sample.w_block)).
    + reflexivity.
    + discriminate.
  - apply (proj2 (proj1 (proj2 (plugin_root_resolution Sample.w_pass)) eq_refl)
             "/plugins/hookify" "hooks" "userpromptsubmit.py");
      try reflexivity.
    discriminate.
  - apply (proj2 (proj2 (plugin_root_resolution Sample.w_pass))).
Defined.

(** C7 as stated fails when the variable is set to the empty string: the
    plugin root is then not the variable's value. *)
Lemma plugin_root_set_counterexample :
  environ Sample.w_empty_root "CLAUDE_PLUGIN_ROOT" = Some EmptyString
  /\ PLUGIN_ROOT Sample.w_empty_root = "/plugins/hookify"
  /\ PLUGIN_ROOT Sample.w_empty_root <> EmptyString.
Proof.
  repeat split. discriminate.
Qed.

Lemma override_keeps_output_witness :
  stdout Sample.json_load (with_plugin_root_env Sample.w_pass None)
  = stdout Sample.json_load (with_plugin_root_env Sample.w_pass (Some "/plugins/hookify"))
  /\ run Sample.json_load (with_plugin_root_env Sample.w_pass None)
     = run Sample.json_load (with_plugin_root_env Sample.w_pass (Some "/plugins/hookify")).
Proof.
  apply (@override_keeps_output _ _ Sample.json_load Sample.w_pass
           None (Some "/plugins/hookify") Sample.load_all Sample.engine_passing);
    split; reflexivity.
Defined.

Lemma error_message_prefixed_witness :
  exists v,
    stdout Sample.json_load Sample.w_eval_raises = [systemMessage_document v]
    /\ v = "Hookify error: " ++ py_str (Exc "ValueError" "boom")
    /\ v <> py_str (Exc "ValueError" "boom")
    /\ systemMessage_document v
       <> systemMessage_document (py_str (Exc "ValueError" "boom")).
Proof.
  apply (@error_message_prefixed _ _ Sample.json_load Sample.w_eval_raises
           Sample.load_all Sample.engine_failing (Exc "ValueError" "boom")).
  - split; reflexivity.
  - reflexivity.
  - reflexivity.
Defined.

(** * Further properties of the script *)

(** ** The paths through [main] *)

Section MoreFacts.

Variable RuleSet : Type.
Variable Engine : Type.
Variable json_load : string -> res pyobj.

Local Abbreviation World := (World RuleSet Engine).
Local Abbreviation loader := (loader RuleSet).
Local Abbreviation RuleEngineClass := (RuleEngineClass RuleSet Engine).

Implicit Types (w : World) (lr : loader) (cls : RuleEngineClass) (e : exn).

(** The [try] block either raises before it prints, or runs its five steps
    and prints the serialized result as its last step. *)
Lemma main_try_cases w lr cls :
  (exists e, snd (main_try json_load w lr cls) = Raise e
             /\ printed (fst (main_try json_load w lr cls)) = [])
  \/ (exists input rules engine result s,
        json_load (stdin w) = Ret input
        /\ lr "prompt" = Ret rules
        /\ new_engine cls = Ret engine
        /\ evaluate_rules cls engine rules input = Ret result
        /\ json_dumps result = Ret s
        /\ main_try json_load w lr cls
           = ([Read_stdin; Call_load_rules "prompt"; Call_RuleEngine;
               Call_evaluate_rules rules input; Print s], Ret tt)).
Proof.
  destruct (snd (main_try json_load w lr cls)) as [[]|e] eqn:Hr.
  - right. revert Hr. unfold main_try, invoke_load_rules, invoke_RuleEngine,
    invoke_evaluate_rules, bind, call, lift, print.
    destruct (json_load (stdin w)) as [input|]; [|discriminate].
    destruct (lr "prompt") as [rules|] eqn:Hl; [|discriminate].
    destruct (new_engine cls) as [engine|] eqn:He; [|discriminate].
    destruct (evaluate_rules cls engine rules input) as [result|] eqn:Hv;
      [|discriminate].
    destruct (json_dumps result) as [s|] eqn:Hs; [|discriminate].
    intros _. exists input, rules, engine, result, s. now repeat split.
  - left. exists e. split; [reflexivity|].
    now apply main_try_raise_silent with (e := e).
Qed.

(** X1.  An exception outside [Exception] raised in the [try] block of
    [main], such as a collaborator's [sys.exit(3)] or a [KeyboardInterrupt],
    is not reported: nothing is printed, and the [finally] block replaces it
    by [sys.exit(0)], so the collaborator's own exit code is lost. *)
Theorem base_exception_silenced w lr cls e :
  imported w lr cls ->
  snd (main_try json_load w lr cls) = Raise e ->
  is_Exception e = false ->
  stdout json_load w = []
  /\ snd (run json_load w) = Exited 0
  /\ fst (run json_load w) = fst (main_try json_load w lr cls).
Proof.
  intros Hi Hr He. unfold stdout, run.
  rewrite (script_imported json_load Hi).
  rewrite (main_base_exception_path json_load w lr cls Hr He). simpl.
  rewrite (main_try_raise_silent json_load w lr cls Hr). now repeat split.
Qed.

(** X2.  When [json.dumps] raises an [Exception] [e] on the object the
    evaluator returned, be it for an unsupported type or key or for a
    circular reference, nothing of the result is printed: the single document
    on standard output is the error object with ["Hookify error: "] and
    [str(e)], the evaluator has been called once all the same, and the exit
    status is 0. *)
Theorem encoder_failure_reported w lr cls input rules engine result e :
  imported w lr cls ->
  json_load (stdin w) = Ret input ->
  lr "prompt" = Ret rules ->
  new_engine cls = Ret engine ->
  evaluate_rules cls engine rules input = Ret result ->
  json_dumps result = Raise e ->
  is_Exception e = true ->
  stdout json_load w = [systemMessage_document ("Hookify error: " ++ py_str e)]
  /\ evaluator_calls (fst (run json_load w)) = [(rules, input)]
  /\ status json_load w = 0%Z.
Proof.
  intros Hi Hj Hl He Hv Hs Hexc.
  pose proof (main_try_delegates json_load w lr cls Hj Hl He Hv) as Ht.
  rewrite Hs in Ht.
  assert (Hr : snd (main_try json_load w lr cls) = Raise e) by now rewrite Ht.
  unfold stdout, status, run.
  rewrite (script_imported json_load Hi).
  rewrite (main_error_path json_load w lr cls Hr Hexc).
  rewrite Ht. repeat split.
Qed.

(** X3.  When [json.load] raises, whatever the exception, no collaborator is
    touched: the loader is not called, the engine is not built and the
    evaluator is not called. *)
Theorem parse_failure_calls_nothing w lr cls e :
  imported w lr cls ->
  json_load (stdin w) = Raise e ->
  loader_calls (fst (run json_load w)) = []
  /\ engine_built (fst (run json_load w)) = false
  /\ evaluator_calls (fst (run json_load w)) = [].
Proof.
  intros Hi Hj. unfold run. rewrite (script_imported json_load Hi).
  unfold main, main_try, invoke_load_rules, invoke_RuleEngine,
    invoke_evaluate_rules, main_except, try_finally, try_except, sys_exit, raise,
    bind, call, lift, print.
  rewrite Hj. destruct (is_Exception e); simpl; now repeat split.
Qed.

(** X4.  When [load_rules] raises, whatever the exception, the engine is
    neither built nor asked to evaluate; the loader has been called once. *)
Theorem loader_failure_stops_delegation w lr cls input e :
  imported w lr cls ->
  json_load (stdin w) = Ret input ->
  lr "prompt" = Raise e ->
  loader_calls (fst (run json_load w)) = ["prompt"]
  /\ engine_built (fst (run json_load w)) = false
  /\ evaluator_calls (fst (run json_load w)) = [].
Proof.
  intros Hi Hj Hl. unfold run. rewrite (script_imported json_load Hi).
  unfold main, main_try, invoke_load_rules, invoke_RuleEngine,
    invoke_evaluate_rules, main_except, try_finally, try_except, sys_exit, raise,
    bind, call, lift, print.
  rewrite Hj, Hl. destruct (is_Exception e); simpl; now repeat split.
Qed.

(** The trace of a run: silent steps, then at most one [print]. *)
Lemma run_trace_shape w :
  exists pre post,
    fst (run json_load w) = (pre ++ post)%list
    /\ printed pre = []
    /\ (post = [] \/ exists s, post = [Print s]).
Proof.
  unfold run. destruct (imports_cases w) as [[lr [cls Hi]] | [e Hr]].
  - rewrite (script_imported json_load Hi).
    destruct (main_try_cases w lr cls)
      as [[e [Hr Hq]] | [input [rules [engine [result [s [_ [_ [_ [_ [_ Ht]]]]]]]]]]].
    + destruct (is_Exception e) eqn:He.
      * rewrite (main_error_path json_load w lr cls Hr He). simpl.
        eexists _, _. split; [reflexivity|]. split; [exact Hq|]. right. now eexists.
      * rewrite (main_base_exception_path json_load w lr cls Hr He). simpl.
        exists (fst (main_try json_load w lr cls)), [].
        rewrite app_nil_r. now repeat split; [|left].
    + rewrite main_success_path by now rewrite Ht.
      rewrite Ht. simpl.
      exists [Read_stdin; Call_load_rules "prompt"; Call_RuleEngine;
              Call_evaluate_rules rules input], [Print s].
      repeat split. right. now exists s.
  - destruct (is_ImportError e) eqn:He.
    + rewrite (script_import_error json_load Hr He). simpl.
      exists [], [Print "{}"]. repeat split. right. now eexists.
    + rewrite (script_import_crash json_load Hr He). simpl.
      exists [], []. repeat split. now left.
Qed.

(** X5.  No run prints twice, and printing is the last thing a run does:
    standard output holds at most one line, and no event follows a [print]. *)
Theorem print_once_and_last w :
  length (stdout json_load w) <= 1
  /\ forall t1 s t2,
       fst (run json_load w) = (t1 ++ Print s :: t2)%list ->
       t2 = [] /\ printed t1 = [].
Proof.
  destruct (run_trace_shape w) as [pre [post [Ht [Hpre Hpost]]]].
  unfold stdout. rewrite Ht. split.
  - rewrite printed_app, Hpre. destruct Hpost as [-> | [s ->]]; simpl; lia.
  - intros t1 s t2 Hd.
    destruct Hpost as [-> | [s' ->]].
    + rewrite app_nil_r in Hd. rewrite Hd, printed_app in Hpre.
      simpl in Hpre. destruct (printed t1); discriminate.
    + destruct (exists_last (l := Print s :: t2)) as [body [x Hx]]; [discriminate|].
      rewrite Hx, app_assoc in Hd. apply app_inj_tail in Hd.
      destruct Hd as [Hbody Hlast].
      destruct body as [|ev body].
      * simpl in Hx. inversion Hx. subst.
        rewrite app_nil_r in Hpre. now split.
      * simpl in Hx. inversion Hx. subst ev. subst pre.
        rewrite printed_app in Hpre. simpl in Hpre.
        destruct (printed t1); discriminate.
Qed.

Lemma import_paths_exclusive w :
  ~ ((exists e, import_raises w e) /\ (exists lr cls, imported w lr cls)).
Proof.
  intros [[e [H | [lr0 [_ H]]]] [lr [cls [Hl Hc]]]]; congruence.
Qed.

(** X6.  Standard output is fixed by the path the run takes, and the paths
    are exhaustive and exclusive.  An import that raises [ImportError] gives
    the one line [{}], an import that raises anything else gives nothing.
    With both names bound, a [try] block that raises an [Exception] [e] gives
    the one line of the error object for [e], one that raises anything else
    gives nothing, and one that completes gives the one line
    [json.dumps(result)] for the object the evaluator returned. *)
Theorem stdout_by_path w :
  ((exists e, import_raises w e) \/ (exists lr cls, imported w lr cls))
  /\ ~ ((exists e, import_raises w e) /\ (exists lr cls, imported w lr cls))
  /\ (forall e, import_raises w e ->
        stdout json_load w = if is_ImportError e then ["{}"] else [])
  /\ (forall lr cls, imported w lr cls ->
        match snd (main_try json_load w lr cls) with
        | Raise e =>
            stdout json_load w
            = if is_Exception e
              then [systemMessage_document ("Hookify error: " ++ py_str e)]
              else []
        | Ret _ =>
            exists input rules engine result s,
              json_load (stdin w) = Ret input
              /\ lr "prompt" = Ret rules
              /\ new_engine cls = Ret engine
              /\ evaluate_rules cls engine rules input = Ret result
              /\ json_dumps result = Ret s
              /\ stdout json_load w = [s]
        end).
Proof.
  split; [|split; [|split]].
  - destruct (imports_cases w) as [H | H]; [now right | now left].
  - apply import_paths_exclusive.
  - intros e Hr. unfold stdout, run. destruct (is_ImportError e) eqn:He.
    + now rewrite (script_import_error json_load Hr He).
    + now rewrite (script_import_crash json_load Hr He).
  - intros lr cls Hi.
    destruct (main_try_cases w lr cls)
      as [[e [Hr Hq]] | [input [rules [engine [result [s [Hj [Hl [He [Hv [Hs Ht]]]]]]]]]]].
    + rewrite Hr. destruct (is_Exception e) eqn:He.
      * now destruct (stdout_error_path json_load Hi Hr He).
      * now destruct (base_exception_silenced Hi Hr He).
    + rewrite Ht. simpl. exists input, rules, engine, result, s.
      repeat (split; [assumption|]).
      unfold stdout, run. rewrite (script_imported json_load Hi).
      rewrite main_success_path by now rewrite Ht.
      now rewrite Ht.
Qed.

Lemma import_raises_unique w e e' :
  import_raises w e -> import_raises w e' -> e = e'.
Proof.
  intros [H | [lr [Hl H]]] [H' | [lr' [Hl' H']]]; congruence.
Qed.


End MoreFacts.

(** ** The plugin root and [sys.path] *)

Lemma rstrip_empty_all_sep (t : string) :
  rstrip_sep t = EmptyString -> all_sep t = true.
Proof.
  induction t as [|c t IH]; [reflexivity|].
  simpl. destruct (rstrip_sep t); [|discriminate].
  destruct (is_sep c); [|discriminate].
  intros _. now rewrite IH.
Qed.

(** The directory of an absolute path is absolute. *)
Lemma dirname_abs (p : string) : is_abs p = true -> is_abs (dirname p) = true.
Proof.
  destruct p as [|c p]; [discriminate|]. simpl. intros Hc.
  assert (Hi : exists k, rfind_sep_succ (String c p) = S k).
  { simpl. destruct (rfind_sep_succ p) as [|k]; rewrite ?Hc; now eexists. }
  destruct Hi as [k Hk]. unfold dirname. rewrite Hk.
  cbn [substring is_empty negb andb all_sep]. rewrite Hc. cbn [andb].
  destruct (all_sep (substring 0 k p)) eqn:Ha; cbn [negb].
  - exact Hc.
  - cbn [rstrip_sep].
    destruct (rstrip_sep (substring 0 k p)) eqn:Hs.
    + apply rstrip_empty_all_sep in Hs. congruence.
    + exact Hc.
Qed.

Section PathFacts.

Variable RuleSet : Type.
Variable Engine : Type.
Variable json_load : string -> res pyobj.

Local Abbreviation World := (World RuleSet Engine).

Implicit Types (w : World).

Lemma plugin_root_listed w :
  existsb (String.eqb (PLUGIN_ROOT w)) (sys_path_after w) = true.
Proof.
  unfold sys_path_after.
  destruct (existsb (String.eqb (PLUGIN_ROOT w)) (sys_path w)) eqn:E;
    [exact E|].
  simpl. now rewrite String.eqb_refl.
Qed.

Lemma listed_iff_in (r : string) (path : list string) :
  existsb (String.eqb r) path = true <-> In r path.
Proof.
  rewrite existsb_exists. split.
  - intros [x [Hin Hx]]. apply String.eqb_eq in Hx. now subst x.
  - intros Hin. exists r. split; [exact Hin | apply String.eqb_refl].
Qed.

(** X8.  With [__file__] resolved to an absolute path, the plugin root is
    never the empty string: it is the non-empty value of the variable, or an
    absolute path.  So the entry the script adds to [sys.path] is never the
    empty one, which would stand for the current directory. *)
Theorem plugin_root_never_empty w :
  is_abs (abspath_file w) = true ->
  PLUGIN_ROOT w <> EmptyString
  /\ (environ w "CLAUDE_PLUGIN_ROOT" = Some (PLUGIN_ROOT w)
      \/ is_abs (PLUGIN_ROOT w) = true)
  /\ forall p, In p (sys_path_after w) -> In p (sys_path w) \/ p <> EmptyString.
Proof.
  intros Habs.
  assert (Hfall : is_abs (script_dir_parent w) = true)
    by (unfold script_dir_parent; now do 2 apply dirname_abs).
  assert (Hor : environ w "CLAUDE_PLUGIN_ROOT" = Some (PLUGIN_ROOT w)
                \/ is_abs (PLUGIN_ROOT w) = true).
  { unfold PLUGIN_ROOT.
    destruct (environ w "CLAUDE_PLUGIN_ROOT") as [v|]; [|now right].
    destruct v as [|c v]; [now right | now left]. }
  assert (Hne : PLUGIN_ROOT w <> EmptyString).
  { unfold PLUGIN_ROOT in *.
    destruct (environ w "CLAUDE_PLUGIN_ROOT") as [v|].
    - destruct v as [|c v]; [|discriminate].
      simpl. intros E. rewrite E in Hfall. discriminate.
    - intros E. rewrite E in Hfall. discriminate. }
  split; [exact Hne | split; [exact Hor|]].
  intros p. unfold sys_path_after.
  destruct (existsb (String.eqb (PLUGIN_ROOT w)) (sys_path w)); [now left|].
  intros [<- | Hin]; [now right | now left].
Qed.

(** X9.  The update of [sys.path] keeps the entries it found, in their
    order, behind at most one new entry, never adds the plugin root a second
    time, and keeps a duplicate-free path duplicate-free. *)
Theorem sys_path_update_invariants w :
  (exists pre, sys_path_after w = (pre ++ sys_path w)%list
               /\ (pre = [] \/ pre = [PLUGIN_ROOT w]))
  /\ count_occ string_dec (sys_path_after w) (PLUGIN_ROOT w)
     = Nat.max 1 (count_occ string_dec (sys_path w) (PLUGIN_ROOT w))
  /\ (NoDup (sys_path w) -> NoDup (sys_path_after w)).
Proof.
  unfold sys_path_after.
  destruct (existsb (String.eqb (PLUGIN_ROOT w)) (sys_path w)) eqn:E.
  - apply listed_iff_in in E. split; [|split].
    + exists []. split; [reflexivity | now left].
    + apply (count_occ_In string_dec) in E. lia.
    + auto.
  - assert (Hnot : ~ In (PLUGIN_ROOT w) (sys_path w)).
    { intros Hin. apply listed_iff_in in Hin. congruence. }
    split; [|split].
    + exists [PLUGIN_ROOT w]. split; [reflexivity | now right].
    + rewrite count_occ_cons_eq by reflexivity.
      apply (count_occ_not_In string_dec) in Hnot. rewrite Hnot. reflexivity.
    + intros Hnd. now constructor.
Qed.

(** X10.  The update is idempotent: started with the [sys.path] a first run
    left, the script leaves it as it is, resolves its imports along the same
    path, and the run is the same. *)
Theorem sys_path_update_idempotent w :
  sys_path_after (with_sys_path w (sys_path_after w)) = sys_path_after w
  /\ run json_load (with_sys_path w (sys_path_after w)) = run json_load w.
Proof.
  assert (Hp : sys_path_after (with_sys_path w (sys_path_after w))
               = sys_path_after w).
  { unfold sys_path_after at 1.
    change (PLUGIN_ROOT (with_sys_path w (sys_path_after w))) with (PLUGIN_ROOT w).
    change (sys_path (with_sys_path w (sys_path_after w))) with (sys_path_after w).
    now rewrite plugin_root_listed. }
  split; [exact Hp|].
  unfold run, script, imports. rewrite Hp. reflexivity.
Qed.

End PathFacts.

(** ** The further properties on the sample worlds *)

Lemma base_exception_silenced_witness :
  stdout Sample.json_load Sample.w_loader_exits = []
  /\ snd (run Sample.json_load Sample.w_loader_exits) = Exited 0
  /\ fst (run Sample.json_load Sample.w_loader_exits)
     = fst (main_try Sample.json_load Sample.w_loader_exits
              (fun _ => Raise (SystemExit 3)) Sample.engine_passing).
Proof.
  apply (@base_exception_silenced _ _ Sample.json_load Sample.w_loader_exits
           (fun _ => Raise (SystemExit 3)) Sample.engine_passing (SystemExit 3)).
  - split; reflexivity.
  - reflexivity.
  - reflexivity.
Defined.

Lemma encoder_failure_reported_witness :
  stdout Sample.json_load Sample.w_circular
  = [systemMessage_document "Hookify error: Circular reference detected"]
  /\ evaluator_calls (fst (run Sample.json_load Sample.w_circular))
     = [(["prompt-rule"], PyDict [("prompt", PyStr "hello")])]
  /\ status Sample.json_load Sample.w_circular = 0%Z.
Proof.
  apply (@encoder_failure_reported _ _ Sample.json_load Sample.w_circular
           Sample.load_all Sample.engine_circular
           (PyDict [("prompt", PyStr "hello")]) ["prompt-rule"] tt
           (PyDict [("self", PyRejected Sample.circular_reference)])
           Sample.circular_reference);
    try reflexivity.
  split; reflexivity.
Defined.

Lemma parse_failure_calls_nothing_witness :
  loader_calls (fst (run Sample.json_load Sample.w_not_json)) = []
  /\ engine_built (fst (run Sample.json_load Sample.w_not_json)) = false
  /\ evaluator_calls (fst (run Sample.json_load Sample.w_not_json)) = [].
Proof.
  apply (@parse_failure_calls_nothing _ _ Sample.json_load Sample.w_not_json
           Sample.load_all Sample.engine_passing
           (JSONDecodeError "Expecting value: line 1 column 1 (char 0)")).
  - split; reflexivity.
  - reflexivity.
Defined.

Lemma loader_failure_stops_delegation_witness :
  loader_calls (fst (run Sample.json_load Sample.w_loader_exits)) = ["prompt"]
  /\ engine_built (fst (run Sample.json_load Sample.w_loader_exits)) = false
  /\ evaluator_calls (fst (run Sample.json_load Sample.w_loader_exits)) = [].
Proof.
  apply (@loader_failure_stops_delegation _ _ Sample.json_load Sample.w_loader_exits
           (fun _ => Raise (SystemExit 3)) Sample.engine_passing
           (PyDict [("prompt", PyStr "hello")]) (SystemExit 3)).
  - split; reflexivity.
  - reflexivity.
  - reflexivity.
Defined.


Lemma plugin_root_never_empty_witness :
  PLUGIN_ROOT Sample.w_empty_root <> EmptyString
  /\ (environ Sample.w_empty_root "CLAUDE_PLUGIN_ROOT"
      = Some (PLUGIN_ROOT Sample.w_empty_root)
      \/ is_abs (PLUGIN_ROOT Sample.w_empty_root) = true)
  /\ forall p, In p (sys_path_after Sample.w_empty_root) ->
               In p (sys_path Sample.w_empty_root) \/ p <> EmptyString.
Proof.
  apply (@plugin_root_never_empty _ _ Sample.w_empty_root).
  reflexivity.
Defined.

Lemma sys_path_update_invariants_witness :
  NoDup (sys_path_after Sample.w_pass).
Proof.
  apply (proj2 (proj2 (@sys_path_update_invariants _ _ Sample.w_pass))).
  simpl. constructor; [intros [] | constructor].
Defined.
